(** * OAI-PMH harvester: paginated client, Dublin-Core mappers, harvest state
      and SQLite index.

    A shallow embedding of [app/services/oai_client.py],
    [app/services/mapper_dspace.py], [app/services/mapper_omeka.py],
    [app/services/harvest_state.py], [app/services/dspace_connector.py],
    [app/services/omeka_connector.py], [app/services/sqlite_backend.py] and
    [app/models/unified_record.py]. *)

From Stdlib Require Import NArith ZArith List String Ascii Lia.
From stdpp Require Import base option list countable gmap.

Local Open Scope N_scope.

(** ** Python [str]

    A Python string is a sequence of Unicode code points. *)

Abbreviation str := (list N).

(** An ASCII literal as a Python string. *)
Definition py (s : string) : str :=
  map N_of_ascii (list_ascii_of_string s).
Arguments py s%_string.

(** [c.isspace()] for one code point, the whitespace table [str.strip()]
    uses: U+0009..U+000D, U+001C..U+0020, U+0085, U+00A0, U+1680,
    U+2000..U+200A, U+2028, U+2029, U+202F, U+205F, U+3000. *)
Definition isspace (c : N) : bool :=
  ((9 <=? c) && (c <=? 13)) || ((28 <=? c) && (c <=? 32))
  || (c =? 133) || (c =? 160) || (c =? 5760)
  || ((8192 <=? c) && (c <=? 8202))
  || (c =? 8232) || (c =? 8233) || (c =? 8239) || (c =? 8287)
  || (c =? 12288).

Fixpoint lstrip (s : str) : str :=
  match s with
  | [] => []
  | c :: s' => if isspace c then lstrip s' else s
  end.

Fixpoint rstrip (s : str) : str :=
  match s with
  | [] => []
  | c :: s' =>
      match rstrip s' with
      | [] => if isspace c then [] else [c]
      | t => c :: t
      end
  end.

(** [s.strip()] *)
Definition strip (s : str) : str := rstrip (lstrip s).

(** [s.startswith(p)] *)
Fixpoint startswith (s p : str) : bool :=
  match p, s with
  | [], _ => true
  | _ :: _, [] => false
  | a :: p', b :: s' => (a =? b) && startswith s' p'
  end.

(** [s.split(sep)] for a one-character separator: never the empty list. *)
Fixpoint split (sep : N) (s : str) : list str :=
  match s with
  | [] => [[]]
  | c :: s' =>
      if c =? sep then [] :: split sep s'
      else match split sep s' with
           | [] => [[c]]
           | h :: t => (c :: h) :: t
           end
  end.

(** [sep.join(l)] *)
Fixpoint join (sep : str) (l : list str) : str :=
  match l with
  | [] => []
  | [a] => a
  | a :: l' => a ++ sep ++ join sep l'
  end.

(** Truth value of an [Optional[str]]: [None] and [""] are false. *)
Definition truthy (o : option str) : bool :=
  match o with
  | Some (_ :: _) => true
  | _ => false
  end.

(** [o or d] for an [Optional[str]] [o]. *)
Definition or_str (o : option str) (d : str) : str :=
  match o with
  | Some (c :: s) => c :: s
  | _ => d
  end.

(** ** XML elements (lxml / ElementTree)

    An element has a qualified tag in Clark notation ([{namespace}local]),
    attributes, an optional text and its child elements in document order. *)

#[local] Set Warnings "-register-all".

Inductive element : Type :=
  Element (tag : str) (attrib : list (str * str)) (text : option str)
          (children : list element).

Definition tag (e : element) : str := let 'Element t _ _ _ := e in t.
Definition attrib (e : element) : list (str * str) :=
  let 'Element _ a _ _ := e in a.
Definition text (e : element) : option str := let 'Element _ _ x _ := e in x.
Definition children (e : element) : list element :=
  let 'Element _ _ _ cs := e in cs.

(** [el.get(key)] *)
Fixpoint get (a : list (str * str)) (key : str) : option str :=
  match a with
  | [] => None
  | (k, v) :: a' => if bool_decide (k = key) then Some v else get a' key
  end.

(** [el.findall(t)] for a plain qualified tag: the direct children with
    that tag, in document order. *)
Definition findall (e : element) (t : str) : list element :=
  filter (fun c => tag c = t) (children e).

(** [el.find(t)]: the first of them. *)
Definition find (e : element) (t : str) : option element :=
  head (findall e t).

(** The proper descendants of an element in document order. *)
Fixpoint descendants (e : element) : list element :=
  let 'Element _ _ _ cs := e in
  (fix go (l : list element) : list element :=
     match l with
     | [] => []
     | c :: l' => c :: descendants c ++ go l'
     end) cs.

(** [el.findall(".//t")] and [el.find(".//t")] *)
Definition findall_desc (e : element) (t : str) : list element :=
  filter (fun c => tag c = t) (descendants e).

Definition find_desc (e : element) (t : str) : option element :=
  head (findall_desc e t).

(** [(el.text or "")] *)
Definition text_or_empty (e : element) : str := default [] (text e).

(** ** Exceptions and results *)

Inductive exception : Type :=
  | HttpRuntimeError (status : Z) (req_params : list (str * str))
      (** [RuntimeError("Error HTTP {status} en petición OAI: {url}")] *)
  | TransportError
      (** an [httpx] exception other than [HTTPStatusError]; not caught *)
  | ParseRuntimeError
      (** [RuntimeError("Error parseando respuesta OAI ...")] *)
  | OaiRuntimeError (code : option str) (text : option str)
      (** [RuntimeError("OAI error: code=... text=...")] *)
  | ValidationError
      (** pydantic rejects a field of [UnifiedScholarlyRecord] *)
  | ValueError
      (** [datetime.fromisoformat] rejects its argument *)
  | AttributeError.
      (** [root.find] called on the [None] the parser returned *)

Inductive result (A : Type) : Type :=
  | Ok (a : A)
  | Raise (e : exception).
Arguments Ok {A} a.
Arguments Raise {A} e.

(** ** Library types the model file declares its fields with

    [HttpUrl] is pydantic's URL type: [HttpUrl_validate] is the validation a
    [UnifiedScholarlyRecord] runs on [url_landing_page] ([None] when it
    raises), [HttpUrl_str] is [str(url)]. [datetime] is Python's, with
    [d.isoformat()] and [datetime.fromisoformat(s)] ([None] when it raises). *)

Class Library : Type := {
  HttpUrl : Type;
  HttpUrl_validate : str -> option HttpUrl;
  HttpUrl_str : HttpUrl -> str;
  datetime : Type;
  isoformat : datetime -> str;
  fromisoformat : str -> option datetime;
}.

(** What the two libraries guarantee about text they produced themselves:
    the text of a validated URL validates again, and [fromisoformat] reads
    back what [isoformat] wrote. *)
Class LibraryLaws (L : Library) : Prop := {
  HttpUrl_validate_str : forall u : HttpUrl,
    is_Some (HttpUrl_validate (HttpUrl_str u));
  fromisoformat_isoformat : forall d : datetime,
    fromisoformat (isoformat d) = Some d;
}.

(** ** [app/models/unified_record.py] *)

Section Records.
Context {L : Library}.

Record UnifiedScholarlyRecord : Type := {
  id : str;
  oai_identifier : str;
  title : str;
  authors : list str;
  institution : str;
  repository : str;
  date_issued : option str;
  type : option str;
  url_landing_page : option HttpUrl;
  abstract : option str;
  keywords : list str;
  language : option str;
  collections : list str;
  date_indexed : option datetime;
}.

(** Validation of the [Optional[HttpUrl]] field from the text passed to the
    constructor. The [str] and [List[str]] fields accept every string. *)
Definition validate_url (o : option str) : result (option HttpUrl) :=
  match o with
  | None => Ok None
  | Some s =>
      match HttpUrl_validate s with
      | Some u => Ok (Some u)
      | None => Raise ValidationError
      end
  end.

(** ** [app/services/mapper_dspace.py] and [app/services/mapper_omeka.py] *)

Definition NS_DC : str := py "{http://purl.org/dc/elements/1.1/}".

(** The placeholder title, ["Sin título"]. *)
Definition SIN_TITULO : str := py "Sin t" ++ [237] ++ py "tulo".

(** The loop of [_get_first] over the elements found. *)
Fixpoint first_text (els : list element) : option str :=
  match els with
  | [] => None
  | el :: rest =>
      let text := strip (text_or_empty el) in
      if truthy (Some text) then Some text else first_text rest
  end.

Definition _get_first (dc_el : element) (tag : str) : option str :=
  first_text (findall dc_el (NS_DC ++ tag)).

(** The loop of [_get_all]. *)
Fixpoint all_texts (els : list element) : list str :=
  match els with
  | [] => []
  | el :: rest =>
      let text := strip (text_or_empty el) in
      if truthy (Some text) then text :: all_texts rest else all_texts rest
  end.

Definition _get_all (dc_el : element) (tag : str) : list str :=
  all_texts (findall dc_el (NS_DC ++ tag)).

Definition looks_like_url (val : str) : bool :=
  startswith val (py "http://") || startswith val (py "https://").

(** The loop that looks for a URL among the [dc:identifier] values. *)
Fixpoint first_url (vals : list str) : option str :=
  match vals with
  | [] => None
  | val :: rest => if looks_like_url val then Some val else first_url rest
  end.

Definition map_dspace_dc_to_record (now : datetime) (oai_identifier : str)
    (dc_el : element) (institution repository : str)
    : result UnifiedScholarlyRecord :=
  let title := or_str (_get_first dc_el (py "title")) SIN_TITULO in
  let authors := _get_all dc_el (py "creator") in
  let authors :=
    match authors with
    | [] => _get_all dc_el (py "contributor")
    | _ => authors
    end in
  let abstract := _get_first dc_el (py "description") in
  let keywords := _get_all dc_el (py "subject") in
  let date_issued := _get_first dc_el (py "date") in
  let type_ := _get_first dc_el (py "type") in
  let language := _get_first dc_el (py "language") in
  let url_landing := first_url (_get_all dc_el (py "identifier")) in
  match validate_url url_landing with
  | Raise e => Raise e
  | Ok url =>
      Ok {| id := oai_identifier;
            oai_identifier := oai_identifier;
            title := title;
            authors := authors;
            institution := institution;
            repository := repository;
            date_issued := date_issued;
            type := type_;
            url_landing_page := url;
            abstract := abstract;
            keywords := keywords;
            language := language;
            collections := [];
            date_indexed := Some now |}
  end.

Definition map_omeka_dc_to_record (now : datetime) (oai_identifier : str)
    (dc_el : element) (institution repository : str)
    : result UnifiedScholarlyRecord :=
  let title := or_str (_get_first dc_el (py "title")) SIN_TITULO in
  let authors := _get_all dc_el (py "creator") in
  let authors :=
    match authors with
    | [] => _get_all dc_el (py "contributor")
    | _ => authors
    end in
  let abstract := _get_first dc_el (py "description") in
  let keywords := _get_all dc_el (py "subject") in
  let date_issued := _get_first dc_el (py "date") in
  let type_ := _get_first dc_el (py "type") in
  let language := _get_first dc_el (py "language") in
  let url_landing := first_url (_get_all dc_el (py "identifier")) in
  match validate_url url_landing with
  | Raise e => Raise e
  | Ok url =>
      Ok {| id := oai_identifier;
            oai_identifier := oai_identifier;
            title := title;
            authors := authors;
            institution := institution;
            repository := repository;
            date_issued := date_issued;
            type := type_;
            url_landing_page := url;
            abstract := abstract;
            keywords := keywords;
            language := language;
            collections := [];
            date_indexed := Some now |}
  end.

End Records.

(** ** [app/services/sqlite_backend.py]

    A row of table [records]: fourteen nullable [TEXT] columns. *)

Record row : Type := {
  col_id : option str;
  col_oai_identifier : option str;
  col_title : option str;
  col_authors : option str;
  col_institution : option str;
  col_repository : option str;
  col_date_issued : option str;
  col_type : option str;
  col_url_landing_page : option str;
  col_abstract : option str;
  col_keywords : option str;
  col_language : option str;
  col_collections : option str;
  col_date_indexed : option str;
}.

(** The database file: table [records] keyed by its primary key [id], and
    table [harvest_state] keyed by [repo_id] with its nullable
    [last_harvest_date]. Statements on the connection are taken to succeed. *)
Record database : Type := {
  records : gmap str row;
  harvest_state : gmap str (option str);
}.

(** [[a.strip() for a in parts if a.strip()]] *)
Fixpoint strip_nonblank (parts : list str) : list str :=
  match parts with
  | [] => []
  | a :: rest =>
      if truthy (Some (strip a)) then strip a :: strip_nonblank rest
      else strip_nonblank rest
  end.

(** The character [";"]. *)
Definition SEMICOLON : N := N_of_ascii ";".

(** [[a.strip() for a in (column or "").split(";") if a.strip()]] *)
Definition split_column (column : option str) : list str :=
  strip_nonblank (split SEMICOLON (or_str column [])).

(** A required [str] field of the model: [None] is rejected. *)
Definition required_str (o : option str) : result str :=
  match o with
  | Some s => Ok s
  | None => Raise ValidationError
  end.

Section Backend.
Context {L : Library}.

(** The tuple [index_record] binds to the [INSERT OR REPLACE]. [now] is
    what [datetime.utcnow()] returns during the call. *)
Definition record_row (now : datetime) (record : UnifiedScholarlyRecord)
    : row :=
  let authors_str := join (py "; ") (authors record) in
  let keywords_str := join (py "; ") (keywords record) in
  let collections_str := join (py "; ") (collections record) in
  {| col_id := Some (id record);
     col_oai_identifier := Some (oai_identifier record);
     col_title := Some (title record);
     col_authors := Some authors_str;
     col_institution := Some (institution record);
     col_repository := Some (repository record);
     col_date_issued := date_issued record;
     col_type := type record;
     col_url_landing_page := HttpUrl_str <$> url_landing_page record;
     col_abstract := abstract record;
     col_keywords := Some keywords_str;
     col_language := language record;
     col_collections := Some collections_str;
     col_date_indexed :=
       Some (isoformat (default now (date_indexed record))) |}.

Definition index_record (now : datetime) (record : UnifiedScholarlyRecord)
    (db : database) : database :=
  {| records := <[id record := record_row now record]> (records db);
     harvest_state := harvest_state db |}.

Definition _row_to_record (r : row) : result UnifiedScholarlyRecord :=
  let authors := split_column (col_authors r) in
  let keywords := split_column (col_keywords r) in
  let collections := split_column (col_collections r) in
  let date_indexed :=
    if truthy (col_date_indexed r) then
      match fromisoformat (or_str (col_date_indexed r) []) with
      | Some d => Ok (Some d)
      | None => Raise ValueError
      end
    else Ok None in
  match date_indexed with
  | Raise e => Raise e
  | Ok date_indexed =>
  match required_str (col_id r), required_str (col_oai_identifier r),
        required_str (col_title r), required_str (col_institution r),
        required_str (col_repository r),
        validate_url (col_url_landing_page r) with
  | Ok id_, Ok oai_identifier, Ok title, Ok institution, Ok repository,
    Ok url =>
      Ok {| id := id_;
            oai_identifier := oai_identifier;
            title := title;
            authors := authors;
            institution := institution;
            repository := repository;
            date_issued := col_date_issued r;
            type := col_type r;
            url_landing_page := url;
            abstract := col_abstract r;
            keywords := keywords;
            language := col_language r;
            collections := collections;
            date_indexed := date_indexed |}
  | _, _, _, _, _, _ => Raise ValidationError
  end
  end.

(** The two library conversions [_row_to_record] runs on a row go through:
    the validation of the landing-page text, when the column holds one, and
    [datetime.fromisoformat] on the indexing time, when the column is not
    empty. *)
Definition row_converts (r : row) : Prop :=
  match col_url_landing_page r with
  | Some s => is_Some (HttpUrl_validate s)
  | None => True
  end
  /\ (if truthy (col_date_indexed r)
      then is_Some (fromisoformat (or_str (col_date_indexed r) []))
      else True).

End Backend.

(** ** [app/services/harvest_state.py] *)

Definition get_last_harvest_date (db : database) (repo_id : str)
    : option str :=
  match harvest_state db !! repo_id with
  | Some (Some (c :: s)) => Some (c :: s)
  | _ => None
  end.

(** [today] is [datetime.utcnow().date().isoformat()] during the call. *)
Definition update_last_harvest_date (today : str) (repo_id : str)
    (date_str : option str) (db : database) : database :=
  let date_str := default today date_str in
  {| records := records db;
     harvest_state := <[repo_id := Some date_str]> (harvest_state db) |}.

(** ** [app/services/oai_client.py] *)

(** What [client.get(...)] followed by [resp.raise_for_status()] and
    [ET.fromstring(resp.content, parser)] gives for one request. *)
Inductive reply : Type :=
  | HTTPStatusError (status : Z)
      (** [raise_for_status] raised for a response with this status *)
  | OtherError
      (** [httpx] raised something else (connection failure, timeout) *)
  | Response (root : option element)
      (** a successful response and the root element of its parsed body;
          [None] when the tolerant parser still raises [XMLSyntaxError] *)
  | RootlessResponse.
      (** a successful response in whose body the tolerant parser finds no
          root element: [ET.fromstring] returns [None] *)

(** The endpoint: the reply to the [n]-th request of a run, for the URL and
    the query parameters sent. *)
Abbreviation endpoint := (nat -> str -> list (str * str) -> reply).

(** [s.rstrip(chars)] *)
Fixpoint rstrip_chars (chars : str) (s : str) : str :=
  match s with
  | [] => []
  | c :: s' =>
      match rstrip_chars chars s' with
      | [] => if existsb (N.eqb c) chars then [] else [c]
      | t => c :: t
      end
  end.

Record OaiClient : Type := {
  base_url : str;
  metadata_prefix : str;
  set_spec : option str;
  timeout : Z;
}.

(** [OaiClient.__init__] *)
Definition OaiClient_init (base_url metadata_prefix : str)
    (set_spec : option str) (timeout : Z) : OaiClient :=
  {| base_url := rstrip_chars (py "?") base_url;
     metadata_prefix := metadata_prefix;
     set_spec := set_spec;
     timeout := timeout |}.

Definition NS_OAI : str := py "{http://www.openarchives.org/OAI/2.0/}".
Definition NS_OAI_DC : str :=
  py "{http://www.openarchives.org/OAI/2.0/oai_dc/}".

(** How the generator stands after a number of requests: it has returned
    ([Done]), it has raised, or it is still running and about to send the
    next request with this resumption token ([Pending]). *)
Inductive outcome : Type :=
  | Done
  | Raised (e : exception)
  | Pending (resumption_token : option str).

(** The parameters of the first request. *)
Definition initial_params (self : OaiClient) (from_date until_date : option str)
    : list (str * str) :=
  [(py "verb", py "ListRecords");
   (py "metadataPrefix", metadata_prefix self)]
  ++ (if truthy (set_spec self) then [(py "set", or_str (set_spec self) [])]
      else [])
  ++ (if truthy from_date then [(py "from", or_str from_date [])] else [])
  ++ (if truthy until_date then [(py "until", or_str until_date [])] else []).

(** The parameters of the request the loop sends next. *)
Definition request_params (params : list (str * str))
    (resumption_token : option str) : list (str * str) :=
  if truthy resumption_token then
    [(py "verb", py "ListRecords");
     (py "resumptionToken", or_str resumption_token [])]
  else params.

(** The body of the loop over the [oai:record] elements: what one record
    yields, [None] when it is skipped. *)
Definition record_item (rec : element) : option (str * element) :=
  match find rec (NS_OAI ++ py "header") with
  | None => None
  | Some header_el =>
      match find header_el (NS_OAI ++ py "identifier") with
      | None => None
      | Some oai_id_el =>
          if negb (truthy (Some (strip (text_or_empty oai_id_el)))) then None
          else
            let oai_identifier := strip (text_or_empty oai_id_el) in
            match find rec (NS_OAI ++ py "metadata") with
            | None => None
            | Some md_el =>
                match find md_el (NS_OAI_DC ++ py "dc") with
                | Some dc_el => Some (oai_identifier, dc_el)
                | None =>
                    match find md_el (NS_DC ++ py "dc") with
                    | Some dc_el => Some (oai_identifier, dc_el)
                    | None => None
                    end
                end
            end
      end
  end.

(** The pairs one page yields. *)
Definition page_records (root : element) : list (str * element) :=
  omap record_item (findall_desc root (NS_OAI ++ py "record")).

(** The resumption token of a page, when present and not blank. *)
Definition next_token (root : element) : option str :=
  match find_desc root (NS_OAI ++ py "resumptionToken") with
  | Some rt_el =>
      if truthy (Some (strip (text_or_empty rt_el)))
      then Some (strip (text_or_empty rt_el))
      else None
  | None => None
  end.

(** The [while True] loop, entered for the [n]-th request with the token in
    hand, run for at most [fuel] requests: the pairs yielded and the
    outcome. *)
Fixpoint iter_loop (server : endpoint) (self : OaiClient)
    (params : list (str * str)) (fuel n : nat)
    (resumption_token : option str) : list (str * element) * outcome :=
  match fuel with
  | O => ([], Pending resumption_token)
  | S fuel' =>
      let req_params := request_params params resumption_token in
      match server n (base_url self) req_params with
      | HTTPStatusError status =>
          if truthy resumption_token && (500 <=? status)%Z then ([], Done)
          else ([], Raised (HttpRuntimeError status req_params))
      | OtherError => ([], Raised TransportError)
      | Response None => ([], Raised ParseRuntimeError)
      | RootlessResponse => ([], Raised AttributeError)
      | Response (Some root) =>
          match find_desc root (NS_OAI ++ py "error") with
          | Some error_el =>
              ([], Raised (OaiRuntimeError (get (attrib error_el) (py "code"))
                                           (text error_el)))
          | None =>
              let items := page_records root in
              match next_token root with
              | Some token =>
                  let '(rest, o) :=
                    iter_loop server self params fuel' (S n) (Some token) in
                  (items ++ rest, o)
              | None => (items, Done)
              end
          end
      end
  end.

Definition iter_records (server : endpoint) (self : OaiClient) (fuel : nat)
    (from_date until_date : option str) : list (str * element) * outcome :=
  iter_loop server self (initial_params self from_date until_date) fuel 0%nat
            None.

(** ** [app/services/dspace_connector.py] and
       [app/services/omeka_connector.py]

    What a harvest runs against: the endpoint, the clock readings
    [datetime.utcnow()] gives while the [k]-th yielded record is mapped and
    indexed, and the date [datetime.utcnow().date().isoformat()] when the
    harvest state is written. *)

Record world {L : Library} : Type := {
  server : endpoint;
  utcnow : nat -> datetime;
  today : str;
}.

(** What a harvest call does within a bound on its requests: [None] when it
    is still running, otherwise the database it leaves and the count it
    returns or the exception it lets through. *)
Abbreviation harvest := (option (database * result nat)).

Section Connectors.
Context {L : Library}.

(** The body of the [for] loop of a harvest over the pairs the generator
    yields, with the connector's mapper: map, index, count. The generator is
    consumed pair by pair, so the pairs it yields before it returns, raises
    or runs out of requests are mapped and indexed in order, and an exception
    of the mapper ends the call before the generator is asked for more. *)
Fixpoint harvest_loop
    (mapper : datetime -> str -> element -> str -> str ->
              result UnifiedScholarlyRecord)
    (w : world) (institution repository : str)
    (items : list (str * element)) (k : nat) (db : database) (count : nat)
    : database * result nat :=
  match items with
  | [] => (db, Ok count)
  | (oai_identifier, dc_el) :: rest =>
      match mapper (utcnow w k) oai_identifier dc_el institution repository
      with
      | Raise e => (db, Raise e)
      | Ok record =>
          harvest_loop mapper w institution repository rest (S k)
                       (index_record (utcnow w k) record db) (count + 1)
      end
  end.

End Connectors.

Module DspaceConnector.
Section Dspace.
Context {L : Library}.

Record DspaceRepoConfig : Type := {
  repo_id : str;
  base_url : str;
  metadata_prefix : str;
  set_spec : option str;
  institution : str;
  repository : str;
}.

(** [self.client] as [__init__] builds it; [timeout] keeps its default. *)
Definition client (config : DspaceRepoConfig) : OaiClient :=
  OaiClient_init (base_url config) (metadata_prefix config) (set_spec config)
                 30.

Definition harvest_full (w : world) (config : DspaceRepoConfig) (fuel : nat)
    (db : database) : harvest :=
  let '(items, o) := iter_records (server w) (client config) fuel None None in
  match harvest_loop map_dspace_dc_to_record w (institution config)
                     (repository config) items 0 db 0 with
  | (db', Raise e) => Some (db', Raise e)
  | (db', Ok count) =>
      match o with
      | Pending _ => None
      | Raised e => Some (db', Raise e)
      | Done =>
          Some (update_last_harvest_date (today w) (repo_id config) None db',
                Ok count)
      end
  end.

Definition harvest_incremental (w : world) (config : DspaceRepoConfig)
    (fuel : nat) (db : database) : harvest :=
  let last_date := get_last_harvest_date db (repo_id config) in
  let '(items, o) :=
    iter_records (server w) (client config) fuel last_date None in
  match harvest_loop map_dspace_dc_to_record w (institution config)
                     (repository config) items 0 db 0 with
  | (db', Raise e) => Some (db', Raise e)
  | (db', Ok count) =>
      match o with
      | Pending _ => None
      | Raised e => Some (db', Raise e)
      | Done =>
          if (0 <? count)%nat then
            Some (update_last_harvest_date (today w) (repo_id config) None
                                           db',
                  Ok count)
          else Some (db', Ok count)
      end
  end.

End Dspace.
End DspaceConnector.

Module OmekaConnector.
Section Omeka.
Context {L : Library}.

Record OmekaRepoConfig : Type := {
  repo_id : str;
  base_url : str;
  metadata_prefix : str;
  set_spec : str;
  institution : str;
  repository : str;
}.

Definition client (config : OmekaRepoConfig) : OaiClient :=
  OaiClient_init (base_url config) (metadata_prefix config)
                 (Some (set_spec config)) 30.

Definition harvest_full (w : world) (config : OmekaRepoConfig) (fuel : nat)
    (db : database) : harvest :=
  let '(items, o) := iter_records (server w) (client config) fuel None None in
  match harvest_loop map_omeka_dc_to_record w (institution config)
                     (repository config) items 0 db 0 with
  | (db', Raise e) => Some (db', Raise e)
  | (db', Ok count) =>
      match o with
      | Pending _ => None
      | Raised e => Some (db', Raise e)
      | Done =>
          Some (update_last_harvest_date (today w) (repo_id config) None db',
                Ok count)
      end
  end.

Definition harvest_incremental (w : world) (config : OmekaRepoConfig)
    (fuel : nat) (db : database) : harvest :=
  let last_date := get_last_harvest_date db (repo_id config) in
  let '(items, o) :=
    iter_records (server w) (client config) fuel last_date None in
  match harvest_loop map_omeka_dc_to_record w (institution config)
                     (repository config) items 0 db 0 with
  | (db', Raise e) => Some (db', Raise e)
  | (db', Ok count) =>
      match o with
      | Pending _ => None
      | Raised e => Some (db', Raise e)
      | Done =>
          if (0 <? count)%nat then
            Some (update_last_harvest_date (today w) (repo_id config) None
                                           db',
                  Ok count)
          else Some (db', Ok count)
      end
  end.

End Omeka.
End OmekaConnector.

(** A list entry that the store gives back as it is: no semicolon, not
    empty, no leading or trailing whitespace. *)
Definition clean (a : str) : Prop :=
  (SEMICOLON ∉ a) /\ strip a = a /\ a <> [].

(** ** A small instance of the library interface and sample data

    A URL is the scheme [http://] or [https://] followed by a remainder that
    is not empty (pydantic rejects a URL without a host); a datetime is
    represented by its ISO text. *)

Record sample_url : Type := {
  secure : bool;
  host_head : N;
  host_tail : str;
}.

Definition sample_validate (s : str) : option sample_url :=
  if startswith s (py "https://") then
    match drop 8 s with
    | c :: t => Some {| secure := true; host_head := c; host_tail := t |}
    | [] => None
    end
  else if startswith s (py "http://") then
    match drop 7 s with
    | c :: t => Some {| secure := false; host_head := c; host_tail := t |}
    | [] => None
    end
  else None.

Definition sample_str (u : sample_url) : str :=
  (if secure u then py "https://" else py "http://")
  ++ host_head u :: host_tail u.

Definition sample_library : Library :=
  {| HttpUrl := sample_url;
     HttpUrl_validate := sample_validate;
     HttpUrl_str := sample_str;
     datetime := str;
     isoformat := fun d => d;
     fromisoformat := fun s => Some s |}.

(** A Dublin-Core field element [<dc:name>value</dc:name>]. *)
Definition dc_field (name value : string) : element :=
  Element (NS_DC ++ py name) [] (Some (py value)) [].

(** An [oai_dc:dc] container with the given fields. *)
Definition dc_container (fields : list element) : element :=
  Element (NS_OAI_DC ++ py "dc") [] None fields.

Definition sample_now : @datetime sample_library :=
  py "2024-05-01T10:00:00".

(** A container whose identifier field holds a handle, then a URL. *)
Definition dc_handle_then_url : element :=
  dc_container [dc_field "title" "  Tesis de prueba ";
                dc_field "creator" "Ana";
                dc_field "identifier" "hdl:123";
                dc_field "identifier" "http://example.org/1"].

(** The same with the URL first. *)
Definition dc_url_then_handle : element :=
  dc_container [dc_field "title" "  Tesis de prueba ";
                dc_field "creator" "Ana";
                dc_field "identifier" "http://example.org/1";
                dc_field "identifier" "hdl:123"].

(** A container whose only title is blank. *)
Definition dc_blank_title : element :=
  dc_container [dc_field "title" "   "; dc_field "creator" "Ana"].

(** A container whose identifier is the bare scheme. *)
Definition dc_bare_scheme : element :=
  dc_container [dc_field "title" "Informe"; dc_field "identifier" "http://"].

Definition sample_url_1 : @HttpUrl sample_library :=
  {| secure := false; host_head := N_of_ascii "e";
     host_tail := py "xample.org/1" |}.

(** What either mapper gives for [dc_handle_then_url] and for
    [dc_url_then_handle]. *)
Definition record_with_url : UnifiedScholarlyRecord (L := sample_library) :=
  {| id := py "oai:x:1";
     oai_identifier := py "oai:x:1";
     title := py "Tesis de prueba";
     authors := [py "Ana"];
     institution := py "UCLV";
     repository := py "DSpace UCLV";
     date_issued := None;
     type := None;
     url_landing_page := Some sample_url_1;
     abstract := None;
     keywords := [];
     language := None;
     collections := [];
     date_indexed := Some sample_now |}.

(** What either mapper gives for [dc_blank_title]. *)
Definition record_blank_title : UnifiedScholarlyRecord (L := sample_library) :=
  {| id := py "oai:x:2";
     oai_identifier := py "oai:x:2";
     title := SIN_TITULO;
     authors := [py "Ana"];
     institution := py "UH";
     repository := py "Omeka UH";
     date_issued := None;
     type := None;
     url_landing_page := None;
     abstract := None;
     keywords := [];
     language := None;
     collections := [];
     date_indexed := Some sample_now |}.

(** An element [<oai:name>] of the OAI-PMH envelope. *)
Definition oai_el (name : string) (text : option str)
    (children : list element) : element :=
  Element (NS_OAI ++ py name) [] text children.

(** An [oai:record] with a header identifier and a metadata payload. *)
Definition oai_record (identifier : string) (dc_el : element) : element :=
  oai_el "record" None
    [oai_el "header" None [oai_el "identifier" (Some (py identifier)) []];
     oai_el "metadata" None [dc_el]].

(** A [ListRecords] response document. *)
Definition oai_page (recs : list element) (token : option string)
    : element :=
  oai_el "OAI-PMH" None
    [oai_el "ListRecords" None
       (recs ++ match token with
                | Some t => [oai_el "resumptionToken" (Some (py t)) []]
                | None => []
                end)].

Definition page_1 : element :=
  oai_page [oai_record "oai:x:1" dc_url_then_handle;
            oai_record " oai:x:2 " dc_blank_title]
           (Some "t1"%string).

(** An endpoint whose first page has two records and a token, and that
    answers the continuation request with HTTP 500. *)
Definition server_500_on_page_2 : endpoint :=
  fun n _ _ =>
    match n with
    | O => Response (Some page_1)
    | _ => HTTPStatusError 500
    end.

(** An endpoint that answers the first request with HTTP 500. *)
Definition server_500_at_once : endpoint :=
  fun _ _ _ => HTTPStatusError 500.

(** An endpoint with one page that holds no record. *)
Definition server_no_records : endpoint :=
  fun _ _ _ => Response (Some (oai_page [] None)).

(** An endpoint with one page that holds one record. *)
Definition server_one_record : endpoint :=
  fun _ _ _ =>
    Response (Some (oai_page [oai_record "oai:x:1" dc_url_then_handle] None)).

Definition sample_client : OaiClient :=
  OaiClient_init (py "https://dspace.uclv.edu.cu/server/oai/request")
                 (py "oai_dc") None 30.

Definition sample_today : str := py "2024-05-01".

Definition world_500_on_page_2 : world (L := sample_library) :=
  {| server := server_500_on_page_2;
     utcnow := fun _ => sample_now;
     today := sample_today |}.

Definition world_500_at_once : world (L := sample_library) :=
  {| server := server_500_at_once;
     utcnow := fun _ => sample_now;
     today := sample_today |}.

Definition world_no_records : world (L := sample_library) :=
  {| server := server_no_records;
     utcnow := fun _ => sample_now;
     today := sample_today |}.

Definition world_one_record : world (L := sample_library) :=
  {| server := server_one_record;
     utcnow := fun _ => sample_now;
     today := sample_today |}.

Definition dspace_config : DspaceConnector.DspaceRepoConfig :=
  {| DspaceConnector.repo_id := py "dspace_uclv";
     DspaceConnector.base_url :=
       py "https://dspace.uclv.edu.cu/server/oai/request";
     DspaceConnector.metadata_prefix := py "oai_dc";
     DspaceConnector.set_spec := None;
     DspaceConnector.institution := py "UCLV";
     DspaceConnector.repository := py "DSpace UCLV" |}.

Definition omeka_config : OmekaConnector.OmekaRepoConfig :=
  {| OmekaConnector.repo_id := py "omeka_uh";
     OmekaConnector.base_url :=
       py "https://accesoabierto.uh.cu/s/scriptorium/oai";
     OmekaConnector.metadata_prefix := py "oai_dc";
     OmekaConnector.set_spec := py "2161263";
     OmekaConnector.institution := py "UH";
     OmekaConnector.repository := py "Omeka UH" |}.

(** A database with no record and no harvest state. *)
Definition db_fresh : database :=
  {| records := ∅; harvest_state := ∅ |}.

(** A database in which both sources were harvested on 2024-01-01. *)
Definition db_harvested : database :=
  {| records := ∅;
     harvest_state := {[ py "dspace_uclv" := Some (py "2024-01-01");
                         py "omeka_uh" := Some (py "2024-01-01") ]} |}.

(** A database whose watermark for the DSpace source is the empty string. *)
Definition db_empty_watermark : database :=
  {| records := ∅;
     harvest_state := {[ py "dspace_uclv" := Some [] ]} |}.

(** ** The fatal conditions of a harvest

    The replies the error-handling design lists as fatal for the request
    sent with this token in hand: any failure of the first request (no token
    yet), a 4xx status, a body the parser rejects or in which it finds no
    document, a document with an explicit [oai:error]. *)
Definition fatal_reply (resumption_token : option str) (r : reply) : Prop :=
  match r with
  | HTTPStatusError status =>
      resumption_token = None \/ (400 <= status < 500)%Z
  | OtherError => resumption_token = None
  | Response None => True
  | RootlessResponse => True
  | Response (Some root) => is_Some (find_desc root (NS_OAI ++ py "error"))
  end.

(** The exception the loop raises on the reply to the request it sent with
    this token in hand and these parameters; [None] when the reply does not
    make it raise. *)
Definition raised_on (resumption_token : option str)
    (req_params : list (str * str)) (r : reply) : option exception :=
  match r with
  | HTTPStatusError status =>
      if truthy resumption_token && (500 <=? status)%Z then None
      else Some (HttpRuntimeError status req_params)
  | OtherError => Some TransportError
  | Response None => Some ParseRuntimeError
  | RootlessResponse => Some AttributeError
  | Response (Some root) =>
      match find_desc root (NS_OAI ++ py "error") with
      | Some error_el =>
          Some (OaiRuntimeError (get (attrib error_el) (py "code"))
                                (text error_el))
      | None => None
      end
  end.

(** A harvest call [run] (by its bound on requests) that drives the client
    [self] from [from_date], started in [db]: whenever it lets an exception
    through it leaves the harvest state as it was; and whenever the
    generator, after some requests, gets a fatal reply, the loop raises on
    that reply and the call lets an exception through, which is the one the
    loop raised unless a record yielded before had already failed
    validation. *)
Definition aborts_on_fatal {L : Library} (w : world) (db : database)
    (self : OaiClient) (from_date : option str) (run : nat -> harvest)
    : Prop :=
  (forall fuel db' e,
     run fuel = Some (db', Raise e) -> harvest_state db' = harvest_state db)
  /\ (forall k items tok fuel,
        (k < fuel)%nat ->
        iter_records (server w) self k from_date None
        = (items, Pending tok) ->
        let req_params :=
          request_params (initial_params self from_date None) tok in
        fatal_reply tok (server w k (base_url self) req_params) ->
        exists raised db' e,
          raised_on tok req_params (server w k (base_url self) req_params)
          = Some raised
          /\ run fuel = Some (db', Raise e)
          /\ (e = raised \/ e = ValidationError)
          /\ harvest_state db' = harvest_state db).

(** A record with several authors and keywords, all clean. *)
Definition record_two_authors : UnifiedScholarlyRecord (L := sample_library) :=
  {| id := py "oai:x:4";
     oai_identifier := py "oai:x:4";
     title := py "Agua potable";
     authors := [py "Ana"; py "Luis Ruiz"];
     institution := py "UCLV";
     repository := py "DSpace UCLV";
     date_issued := Some (py "2020");
     type := None;
     url_landing_page := Some sample_url_1;
     abstract := None;
     keywords := [py "agua"; py "salud"; py "redes de agua"];
     language := Some (py "es");
     collections := [];
     date_indexed := Some sample_now |}.

(** A record whose single author has a leading space, as a client of
    [POST /records] may send it, and the record read back from its row. *)
Definition record_padded_author : UnifiedScholarlyRecord (L := sample_library) :=
  {| id := py "oai:x:5";
     oai_identifier := py "oai:x:5";
     title := py "Informe";
     authors := [py " Ana"];
     institution := py "UH";
     repository := py "Omeka UH";
     date_issued := None;
     type := None;
     url_landing_page := None;
     abstract := None;
     keywords := [];
     language := None;
     collections := [];
     date_indexed := Some sample_now |}.

Definition record_padded_author_read : UnifiedScholarlyRecord (L := sample_library) :=
  {| id := py "oai:x:5";
     oai_identifier := py "oai:x:5";
     title := py "Informe";
     authors := [py "Ana"];
     institution := py "UH";
     repository := py "Omeka UH";
     date_issued := None;
     type := None;
     url_landing_page := None;
     abstract := None;
     keywords := [];
     language := None;
     collections := [];
     date_indexed := Some sample_now |}.

(** ** Further notions used by the properties

    A value as the mappers keep it: trimmed and not empty. *)
Definition stripped (t : str) : Prop := strip t = t /\ t <> [].

(** The endpoint answers the requests from the [n]-th on, sent with [tok] in
    hand, with these pages one after the other: each parses and has no
    [oai:error], each but the last carries a resumption token, the last one
    carries none. *)
Fixpoint serves (server : endpoint) (self : OaiClient)
    (params : list (str * str)) (n : nat) (tok : option str)
    (roots : list element) : Prop :=
  match roots with
  | [] => False
  | root :: rest =>
      server n (base_url self) (request_params params tok)
      = Response (Some root)
      /\ find_desc root (NS_OAI ++ py "error") = None
      /\ match rest with
         | [] => next_token root = None
         | _ :: _ =>
             exists token,
               next_token root = Some token
               /\ serves server self params (S n) (Some token) rest
         end
  end.

Definition page_2 : element :=
  oai_page [oai_record "oai:x:3" dc_handle_then_url] None.

(** An endpoint with two pages. *)
Definition server_two_pages : endpoint :=
  fun n _ _ =>
    match n with
    | 0%nat => Response (Some page_1)
    | 1%nat => Response (Some page_2)
    | _ => HTTPStatusError 404
    end.

(** An endpoint whose continuation request times out. *)
Definition server_timeout_on_page_2 : endpoint :=
  fun n _ _ =>
    match n with
    | 0%nat => Response (Some page_1)
    | _ => OtherError
    end.

(** An endpoint whose continuation request is answered with a body that
    holds no document. *)
Definition server_rootless_on_page_2 : endpoint :=
  fun n _ _ =>
    match n with
    | 0%nat => Response (Some page_1)
    | _ => RootlessResponse
    end.

(** The databases this code writes: a file with no record yet, then any
    sequence of [index_record] and [update_last_harvest_date] calls. *)
Inductive written {L : Library} : database -> Prop :=
  | written_fresh (states : gmap str (option str)) :
      written {| records := ∅; harvest_state := states |}
  | written_index (now : datetime) (record : UnifiedScholarlyRecord)
      (db : database) :
      written db -> written (index_record now record db)
  | written_state (today repo_id : str) (date_str : option str)
      (db : database) :
      written db -> written (update_last_harvest_date today repo_id date_str db).

(** The exception the generator raises on the reply to its first request
    (sent with these parameters, no token in hand), when it raises. *)
Definition first_failure (params : list (str * str)) (r : reply)
    : option exception :=
  match r with
  | HTTPStatusError status => Some (HttpRuntimeError status params)
  | OtherError => Some TransportError
  | Response None => Some ParseRuntimeError
  | RootlessResponse => Some AttributeError
  | Response (Some root) =>
      match find_desc root (NS_OAI ++ py "error") with
      | Some error_el =>
          Some (OaiRuntimeError (get (attrib error_el) (py "code"))
                                (text error_el))
      | None => None
      end
  end.

(** A yielded pair whose record passes the validation of the model: the
    landing page the mappers find in it, if any, is accepted. *)
Definition mappable {L : Library} (item : str * element) : Prop :=
  exists url,
    validate_url (first_url (_get_all item.2 (py "identifier"))) = Ok url.

(** An endpoint whose first body holds nothing the parser can make a
    document of. *)
Definition world_rootless : world (L := sample_library) :=
  {| server := fun _ _ _ => RootlessResponse;
     utcnow := fun _ => sample_now;
     today := sample_today |}.

(** The row of [key] in [db] is one a harvest of a source with these labels
    indexed under that identifier. *)
Definition holds_row (db : database) (institution repository : str)
    (key : str) : Prop :=
  exists rw, records db !! key = Some rw
    /\ col_id rw = Some key /\ col_oai_identifier rw = Some key
    /\ col_institution rw = Some institution
    /\ col_repository rw = Some repository.

(** A first page that is a protocol error, as a server answers when nothing
    matches the request. *)
Definition page_no_records_match : element :=
  oai_el "OAI-PMH" None
    [Element (NS_OAI ++ py "error") [(py "code", py "noRecordsMatch")]
             (Some (py "No matches")) []].

Definition world_no_records_match : world (L := sample_library) :=
  {| server := fun _ _ _ => Response (Some page_no_records_match);
     utcnow := fun _ => sample_now;
     today := sample_today |}.

Definition world_timeout_on_page_2 : world (L := sample_library) :=
  {| server := server_timeout_on_page_2;
     utcnow := fun _ => sample_now;
     today := sample_today |}.

(** What the DSpace mapper gives for [dc_blank_title] under the identifier
    [oai:x:2]. *)
Definition record_blank_title_uclv
    : UnifiedScholarlyRecord (L := sample_library) :=
  {| id := py "oai:x:2";
     oai_identifier := py "oai:x:2";
     title := SIN_TITULO;
     authors := [py "Ana"];
     institution := py "UCLV";
     repository := py "DSpace UCLV";
     date_issued := None;
     type := None;
     url_landing_page := None;
     abstract := None;
     keywords := [];
     language := None;
     collections := [];
     date_indexed := Some sample_now |}.

(** ** [SqliteSearchBackend.search_advanced]: the statement and its
       parameters

    A value bound to a placeholder: a string or an integer. *)
Inductive sql_value : Type :=
  | SqlText (s : str)
  | SqlInteger (n : Z).

(** A line break and the indentation of the statement's lines. *)
Definition NL : str := [10].
Definition INDENT : str := py "            ".

(** The SQL text and the parameter list [search_advanced] passes to
    [cursor.execute]. *)
Definition search_advanced_statement
    (query type_filter repository_filter : option str)
    (year_from year_to : option Z) (page page_size : Z)
    : str * list sql_value :=
  let conditions : list str := [] in
  let params : list sql_value := [] in
  let '(conditions, params) :=
    if truthy query then
      let pattern := py "%" ++ or_str query [] ++ py "%" in
      (conditions
       ++ [py "(title LIKE ? OR abstract LIKE ? OR authors LIKE ? OR keywords LIKE ?)"],
       params ++ [SqlText pattern; SqlText pattern; SqlText pattern;
                  SqlText pattern])
    else (conditions, params) in
  let '(conditions, params) :=
    if truthy type_filter then
      (conditions ++ [py "type = ?"],
       params ++ [SqlText (or_str type_filter [])])
    else (conditions, params) in
  let '(conditions, params) :=
    if truthy repository_filter then
      (conditions ++ [py "repository = ?"],
       params ++ [SqlText (or_str repository_filter [])])
    else (conditions, params) in
  let '(conditions, params) :=
    match year_from with
    | Some y =>
        (conditions
         ++ [py "CAST(substr(date_issued, 1, 4) AS INTEGER) >= ?"],
         params ++ [SqlInteger y])
    | None => (conditions, params)
    end in
  let '(conditions, params) :=
    match year_to with
    | Some y =>
        (conditions
         ++ [py "CAST(substr(date_issued, 1, 4) AS INTEGER) <= ?"],
         params ++ [SqlInteger y])
    | None => (conditions, params)
    end in
  let where_clause :=
    match conditions with
    | [] => []
    | _ :: _ => py "WHERE " ++ join (py " AND ") conditions
    end in
  let offset := ((page - 1) * page_size)%Z in
  let sql :=
    NL ++ INDENT ++ py "SELECT *" ++ NL
       ++ INDENT ++ py "FROM records" ++ NL
       ++ INDENT ++ where_clause ++ NL
       ++ INDENT ++ py "ORDER BY date_issued DESC" ++ NL
       ++ INDENT ++ py "LIMIT ? OFFSET ?" ++ NL
       ++ py "        " in
  (sql, params ++ [SqlInteger page_size; SqlInteger offset]).

(** The number of [?] placeholders of a statement. *)
Definition placeholders (sql : str) : nat :=
  count_occ N.eq_dec sql (N_of_ascii "?").

(** * Properties *)

(** ** Strings *)

Example strip_example : strip (py "  Tesis de prueba ") = py "Tesis de prueba".
Proof. reflexivity. Qed.

Example split_example :
  split SEMICOLON (py "Ana; Luis;;") = [py "Ana"; py " Luis"; []; []].
Proof. reflexivity. Qed.

Example join_example :
  join (py "; ") [py "Ana"; py "Luis"] = py "Ana; Luis".
Proof. reflexivity. Qed.

Lemma lstrip_head (s : str) :
  lstrip s = [] \/ exists c t, lstrip s = c :: t /\ isspace c = false.
Proof.
  induction s as [|c s IH]; simpl; [by left|].
  destruct (isspace c) eqn:Hc; [exact IH|].
  right. by exists c, s.
Qed.

Lemma rstrip_cons_nonspace (c : N) (s : str) :
  isspace c = false -> rstrip (c :: s) = c :: rstrip s.
Proof. intros Hc. simpl. rewrite Hc. by destruct (rstrip s). Qed.

Lemma rstrip_idemp (s : str) : rstrip (rstrip s) = rstrip s.
Proof.
  induction s as [|c s IH]; [done|]. simpl.
  destruct (rstrip s) as [|d t] eqn:Hs.
  - destruct (isspace c) eqn:Hc; [done|]. simpl. by rewrite Hc.
  - change (rstrip (c :: d :: t)) with
      (match rstrip (d :: t) with
       | [] => if isspace c then [] else [c]
       | d' :: t' => c :: d' :: t'
       end).
    by rewrite IH.
Qed.

Lemma strip_idemp (s : str) : strip (strip s) = strip s.
Proof.
  unfold strip. destruct (lstrip_head s) as [->|(c & t & -> & Hc)]; [done|].
  rewrite (rstrip_cons_nonspace c t Hc). simpl lstrip. rewrite Hc.
  by rewrite (rstrip_cons_nonspace _ _ Hc), rstrip_idemp.
Qed.

Lemma elem_of_lstrip (x : N) (s : str) : x ∈ lstrip s -> x ∈ s.
Proof.
  induction s as [|c s IH]; simpl; [done|].
  destruct (isspace c); [|done]. intros H. right. by apply IH.
Qed.

Lemma elem_of_rstrip (x : N) (s : str) : x ∈ rstrip s -> x ∈ s.
Proof.
  induction s as [|c s IH]; simpl; [done|].
  destruct (rstrip s) as [|d t].
  - destruct (isspace c); [by intros ?%elem_of_nil|].
    intros ->%list_elem_of_singleton. left.
  - intros [->|H]%elem_of_cons; [left|right; by apply IH].
Qed.

Lemma elem_of_strip (x : N) (s : str) : x ∈ strip s -> x ∈ s.
Proof. intros H. by apply elem_of_lstrip, elem_of_rstrip. Qed.

Lemma truthy_Some (s : str) : truthy (Some s) = true <-> s <> [].
Proof. destruct s; simpl; split; congruence. Qed.

Lemma split_nonempty (sep : N) (s : str) : split sep s <> [].
Proof.
  induction s as [|c s IH]; simpl; [done|].
  destruct (c =? sep); [done|]. by destruct (split sep s).
Qed.

Lemma split_no_sep (sep : N) (s : str) :
  sep ∉ s -> split sep s = [s].
Proof.
  induction s as [|c s IH]; [done|]. intros H. simpl.
  apply not_elem_of_cons in H as [Hc Hs].
  destruct (N.eqb_spec c sep); [congruence|]. by rewrite IH.
Qed.

Lemma split_app_sep (sep : N) (a s : str) :
  sep ∉ a -> split sep (a ++ sep :: s) = a :: split sep s.
Proof.
  induction a as [|c a IH]; intros H; simpl.
  - by rewrite N.eqb_refl.
  - apply not_elem_of_cons in H as [Hc Ha].
    destruct (N.eqb_spec c sep); [congruence|]. by rewrite IH.
Qed.

Lemma split_elem_no_sep (sep : N) (s a : str) :
  a ∈ split sep s -> sep ∉ a.
Proof.
  revert a. induction s as [|c s IH]; simpl; intros a.
  - intros ->%list_elem_of_singleton. apply not_elem_of_nil.
  - destruct (N.eqb_spec c sep) as [->|Hc].
    + intros [->|H]%elem_of_cons; [apply not_elem_of_nil|by apply IH].
    + destruct (split sep s) as [|h t] eqn:Hs.
      * intros ->%list_elem_of_singleton.
        by intros [->|?%elem_of_nil]%elem_of_cons.
      * intros [->|H]%elem_of_cons.
        -- intros [->|H]%elem_of_cons; [done|].
           by apply (IH h); [left|].
        -- apply IH. by right.
Qed.

Lemma split_join (p : str) (l : list str) :
  SEMICOLON ∉ p -> Forall (fun a => SEMICOLON ∉ a) l -> l <> [] ->
  split (SEMICOLON) (p ++ join (py "; ") l)
  = (p ++ hd [] l) :: map (cons 32) (tl l).
Proof.
  revert p. induction l as [|a l IH]; intros p Hp Hl Hne; [done|].
  apply Forall_cons in Hl as [Ha Hl].
  destruct l as [|b l].
  - simpl. rewrite split_no_sep; [done|]. by apply not_elem_of_app.
  - change (join (py "; ") (a :: b :: l))
      with (a ++ SEMICOLON :: ([32] ++ join (py "; ") (b :: l))).
    rewrite app_assoc.
    rewrite split_app_sep by (by apply not_elem_of_app).
    rewrite IH; [done| |done|done].
    by intros [?|?%elem_of_nil]%elem_of_cons.
Qed.

Lemma strip_nonblank_spaced (l : list str) :
  Forall clean l -> strip_nonblank (map (cons 32) l) = l.
Proof.
  induction 1 as [|a l (_ & Ha & Hne) _ IH]; [done|].
  cbn [map strip_nonblank].
  change (strip (32 :: a)) with (strip a). rewrite Ha.
  apply truthy_Some in Hne. by rewrite Hne, IH.
Qed.

(** Reading back a column written from a list of clean entries. *)
Lemma split_column_join (l : list str) :
  Forall clean l -> split_column (Some (join (py "; ") l)) = l.
Proof.
  intros Hl. unfold split_column.
  destruct l as [|a l]; [done|].
  assert (or_str (Some (join (py "; ") (a :: l))) []
          = [] ++ join (py "; ") (a :: l)) as ->.
  { generalize (join (py "; ") (a :: l)). by intros []. }
  rewrite split_join; [|apply not_elem_of_nil| |done].
  - apply Forall_cons in Hl as [(_ & Ha & Hne) Hl].
    cbn [hd tl app strip_nonblank]. rewrite Ha.
    apply truthy_Some in Hne. by rewrite Hne, strip_nonblank_spaced.
  - eapply Forall_impl; [exact Hl|]. by intros ? (? & _).
Qed.

Lemma strip_nonblank_no_sep (parts : list str) (a : str) :
  Forall (fun p => SEMICOLON ∉ p) parts ->
  a ∈ strip_nonblank parts -> SEMICOLON ∉ a.
Proof.
  induction 1 as [|p parts Hp _ IH]; cbn [strip_nonblank];
    [by intros ?%elem_of_nil|].
  destruct (truthy (Some (strip p))); [|exact IH].
  intros [->|H]%elem_of_cons; [|by apply IH].
  intros Hin. by apply Hp, elem_of_strip.
Qed.

(** No entry read back from a column holds a semicolon. *)
Lemma split_column_no_sep (column : option str) (a : str) :
  a ∈ split_column column -> SEMICOLON ∉ a.
Proof.
  unfold split_column. apply strip_nonblank_no_sep.
  apply Forall_forall. intros p. apply split_elem_no_sep.
Qed.

(** ** The loops of the mappers *)

Lemma first_text_nonblank (els : list element) (t : str) :
  first_text els = Some t -> strip t = t /\ t <> [].
Proof.
  induction els as [|el els IH]; cbn [first_text]; [done|].
  destruct (truthy (Some (strip (text_or_empty el)))) eqn:Ht; [|exact IH].
  intros [= <-]. split; [apply strip_idemp|by apply truthy_Some].
Qed.

Lemma first_text_all_blank (els : list element) :
  Forall (fun el => strip (text_or_empty el) = []) els ->
  first_text els = None.
Proof.
  induction 1 as [|el els Hel _ IH]; cbn [first_text]; [done|].
  by rewrite Hel.
Qed.

(** Every value [_get_all] collects is trimmed and not empty. *)
Lemma all_texts_stripped (els : list element) (t : str) :
  t ∈ all_texts els -> strip t = t /\ t <> [].
Proof.
  induction els as [|el els IH]; cbn [all_texts];
    [by intros ?%elem_of_nil|].
  destruct (truthy (Some (strip (text_or_empty el)))) eqn:Ht; [|exact IH].
  intros [->|H]%elem_of_cons; [|by apply IH].
  split; [apply strip_idemp|by apply truthy_Some].
Qed.

Lemma first_url_skip (x : str) (vals : list str) :
  looks_like_url x = false -> first_url (x :: vals) = first_url vals.
Proof. intros H. simpl. by rewrite H. Qed.

Lemma first_url_take (u : str) (vals : list str) :
  looks_like_url u = true -> first_url (u :: vals) = Some u.
Proof. intros H. simpl. by rewrite H. Qed.

(** ** The field mappers *)

Section Mapper.
Context {L : Library}.

Lemma mappers_agree (now : datetime) (oai : str) (dc_el : element)
    (inst repo : str) :
  map_omeka_dc_to_record now oai dc_el inst repo
  = map_dspace_dc_to_record now oai dc_el inst repo.
Proof. reflexivity. Qed.

(** What the mapper returns, by the validation of the URL it found. *)
Lemma map_dspace_cases (now : datetime) (oai : str) (dc_el : element)
    (inst repo : str) :
  match validate_url (first_url (_get_all dc_el (py "identifier"))) with
  | Ok url =>
      exists r, map_dspace_dc_to_record now oai dc_el inst repo = Ok r
        /\ id r = oai /\ oai_identifier r = oai
        /\ title r = or_str (_get_first dc_el (py "title")) SIN_TITULO
        /\ url_landing_page r = url
  | Raise e => map_dspace_dc_to_record now oai dc_el inst repo = Raise e
  end.
Proof.
  unfold map_dspace_dc_to_record.
  destruct (validate_url _); [|done]. eexists. by split.
Qed.

Lemma map_dspace_Ok (now : datetime) (oai : str) (dc_el : element)
    (inst repo : str) (r : UnifiedScholarlyRecord) :
  map_dspace_dc_to_record now oai dc_el inst repo = Ok r ->
  id r = oai /\ oai_identifier r = oai
  /\ title r = or_str (_get_first dc_el (py "title")) SIN_TITULO
  /\ validate_url (first_url (_get_all dc_el (py "identifier")))
     = Ok (url_landing_page r).
Proof.
  intros Hr. pose proof (map_dspace_cases now oai dc_el inst repo) as H.
  destruct (validate_url _) as [url|e].
  - destruct H as (r' & Hr' & ? & ? & ? & ?). rewrite Hr in Hr'.
    injection Hr' as <-. by subst.
  - congruence.
Qed.

End Mapper.

(** C7. For every raw metadata element and identifier, the record either
    mapper produces has its [id] equal to its [oai_identifier], both being
    the identifier passed in. *)
Theorem C7_id_equals_oai_identifier {L : Library} (now : datetime)
    (oai : str) (dc_el : element) (inst repo : str)
    (r : UnifiedScholarlyRecord) :
  map_dspace_dc_to_record now oai dc_el inst repo = Ok r
  \/ map_omeka_dc_to_record now oai dc_el inst repo = Ok r ->
  id r = oai_identifier r /\ id r = oai.
Proof.
  intros [H|H]; apply map_dspace_Ok in H as (-> & -> & _); done.
Qed.

Lemma C7_witness :
  map_dspace_dc_to_record (L := sample_library) sample_now (py "oai:x:1")
    dc_url_then_handle (py "UCLV") (py "DSpace UCLV") = Ok record_with_url
  /\ id record_with_url = oai_identifier record_with_url
  /\ id record_with_url = py "oai:x:1".
Proof.
  split; [vm_compute; reflexivity|].
  apply (C7_id_equals_oai_identifier (L := sample_library) sample_now
           (py "oai:x:1") dc_url_then_handle (py "UCLV") (py "DSpace UCLV")).
  left. vm_compute. reflexivity.
Defined.

(** C8. The title of a mapped record is never blank, and a raw element all
    of whose title occurrences are blank (or that has none) gets the fixed
    placeholder, which is not blank itself. *)
Theorem C8_title_placeholder {L : Library} (now : datetime) (oai : str)
    (dc_el : element) (inst repo : str) (r : UnifiedScholarlyRecord) :
  map_dspace_dc_to_record now oai dc_el inst repo = Ok r
  \/ map_omeka_dc_to_record now oai dc_el inst repo = Ok r ->
  strip (title r) <> []
  /\ strip SIN_TITULO <> []
  /\ (Forall (fun el => strip (text_or_empty el) = [])
             (findall dc_el (NS_DC ++ py "title")) ->
      title r = SIN_TITULO).
Proof.
  intros H.
  assert (map_dspace_dc_to_record now oai dc_el inst repo = Ok r) as Hr
    by (destruct H as [H|H]; exact H).
  apply map_dspace_Ok in Hr as (_ & _ & Ht & _).
  split_and!.
  - rewrite Ht. unfold _get_first.
    destruct (first_text _) as [t|] eqn:Hf; [|done].
    apply first_text_nonblank in Hf as [Hs Hne].
    destruct t; [done|]. simpl or_str. by rewrite Hs.
  - done.
  - intros Hblank. rewrite Ht. unfold _get_first.
    by rewrite first_text_all_blank.
Qed.

Lemma C8_witness :
  map_omeka_dc_to_record (L := sample_library) sample_now (py "oai:x:2")
    dc_blank_title (py "UH") (py "Omeka UH") = Ok record_blank_title
  /\ Forall (fun el => strip (text_or_empty el) = [])
            (findall dc_blank_title (NS_DC ++ py "title"))
  /\ title record_blank_title = SIN_TITULO
  /\ strip (title record_blank_title) <> [].
Proof.
  assert (Forall (fun el => strip (text_or_empty el) = [])
                 (findall dc_blank_title (NS_DC ++ py "title"))) as Hblank.
  { vm_compute. repeat constructor. }
  split; [vm_compute; reflexivity|]. split; [exact Hblank|].
  destruct (C8_title_placeholder (L := sample_library) sample_now
              (py "oai:x:2") dc_blank_title (py "UH") (py "Omeka UH")
              record_blank_title) as (Hne & _ & Hph).
  { right. vm_compute. reflexivity. }
  split; [exact (Hph Hblank)|exact Hne].
Defined.

(** C3, as amended. The mapper has one failure path: it produces a record,
    with defaults for the missing fields, unless the first identifier value
    that begins with [http://] or [https://] is rejected by the validation of
    the model's [HttpUrl] field, in which case it raises that validation
    error. *)
Theorem C3_mapper_fails_only_on_url {L : Library} (now : datetime)
    (oai : str) (dc_el : element) (inst repo : str) :
  match first_url (_get_all dc_el (py "identifier")) with
  | None =>
      exists r, map_dspace_dc_to_record now oai dc_el inst repo = Ok r
        /\ map_omeka_dc_to_record now oai dc_el inst repo = Ok r
  | Some val =>
      match HttpUrl_validate val with
      | Some _ =>
          exists r, map_dspace_dc_to_record now oai dc_el inst repo = Ok r
            /\ map_omeka_dc_to_record now oai dc_el inst repo = Ok r
      | None =>
          map_dspace_dc_to_record now oai dc_el inst repo
          = Raise ValidationError
          /\ map_omeka_dc_to_record now oai dc_el inst repo
             = Raise ValidationError
      end
  end.
Proof.
  pose proof (map_dspace_cases now oai dc_el inst repo) as H.
  unfold validate_url in H.
  destruct (first_url _) as [val|].
  - destruct (HttpUrl_validate val).
    + destruct H as (r & Hr & _). by exists r.
    + by split.
  - destruct H as (r & Hr & _). by exists r.
Qed.

(** The mapper raises on an identifier that is the bare scheme [http://]. *)
Lemma C3_counterexample :
  map_dspace_dc_to_record (L := sample_library) sample_now (py "oai:x:3")
    dc_bare_scheme (py "UCLV") (py "DSpace UCLV") = Raise ValidationError.
Proof. vm_compute. reflexivity. Qed.

(** C2, as amended. When the identifier field holds one value that does not
    begin with [http://] or [https://] and one that does, the landing page
    is the validated URL value whichever of the two comes first: the scan
    skips the values that do not look like a URL. *)
Theorem C2_landing_page_is_first_url {L : Library} (now : datetime)
    (oai : str) (dc_el : element) (inst repo : str) (x u : str)
    (v : HttpUrl) :
  looks_like_url x = false -> looks_like_url u = true ->
  HttpUrl_validate u = Some v ->
  _get_all dc_el (py "identifier") = [u; x]
  \/ _get_all dc_el (py "identifier") = [x; u] ->
  exists r, map_dspace_dc_to_record now oai dc_el inst repo = Ok r
    /\ map_omeka_dc_to_record now oai dc_el inst repo = Ok r
    /\ url_landing_page r = Some v.
Proof.
  intros Hx Hu Hv Hids.
  pose proof (map_dspace_cases now oai dc_el inst repo) as H.
  assert (first_url (_get_all dc_el (py "identifier")) = Some u) as Hfirst.
  { destruct Hids as [->| ->].
    - by apply first_url_take.
    - rewrite first_url_skip by done. by apply first_url_take. }
  rewrite Hfirst in H. unfold validate_url in H. rewrite Hv in H.
  destruct H as (r & Hr & _ & _ & _ & Hurl). by exists r.
Qed.

Lemma C2_witness :
  looks_like_url (py "hdl:123") = false
  /\ looks_like_url (py "http://example.org/1") = true
  /\ HttpUrl_validate (Library := sample_library) (py "http://example.org/1")
     = Some sample_url_1
  /\ _get_all dc_url_then_handle (py "identifier")
     = [py "http://example.org/1"; py "hdl:123"]
  /\ exists r,
       map_dspace_dc_to_record (L := sample_library) sample_now
         (py "oai:x:1") dc_url_then_handle (py "UCLV") (py "DSpace UCLV")
       = Ok r
       /\ map_omeka_dc_to_record (L := sample_library) sample_now
            (py "oai:x:1") dc_url_then_handle (py "UCLV") (py "DSpace UCLV")
          = Ok r
       /\ url_landing_page r = Some sample_url_1.
Proof.
  split_and!; [vm_compute; reflexivity..|].
  apply (C2_landing_page_is_first_url (L := sample_library) sample_now
           (py "oai:x:1") dc_url_then_handle (py "UCLV") (py "DSpace UCLV")
           (py "hdl:123") (py "http://example.org/1") sample_url_1).
  - vm_compute. reflexivity.
  - vm_compute. reflexivity.
  - vm_compute. reflexivity.
  - left. vm_compute. reflexivity.
Defined.

(** With the handle first and the URL second, the landing page is the URL,
    not absent. *)
Lemma C2_counterexample :
  _get_all dc_handle_then_url (py "identifier")
  = [py "hdl:123"; py "http://example.org/1"]
  /\ looks_like_url (py "hdl:123") = false
  /\ looks_like_url (py "http://example.org/1") = true
  /\ map_dspace_dc_to_record (L := sample_library) sample_now (py "oai:x:1")
       dc_handle_then_url (py "UCLV") (py "DSpace UCLV")
     = Ok record_with_url
  /\ map_omeka_dc_to_record (L := sample_library) sample_now (py "oai:x:1")
       dc_handle_then_url (py "UCLV") (py "DSpace UCLV")
     = Ok record_with_url
  /\ url_landing_page record_with_url <> None.
Proof. split_and!; [vm_compute; reflexivity..|discriminate]. Qed.

(** ** The paginated client *)

Lemma next_token_truthy (root : element) (t : str) :
  next_token root = Some t -> truthy (Some t) = true.
Proof.
  unfold next_token. destruct (find_desc _ _) as [rt_el|]; [|done].
  destruct (truthy (Some (strip (text_or_empty rt_el)))) eqn:Ht; [|done].
  by intros [= <-].
Qed.

Lemma request_params_token (params : list (str * str)) (t : str) :
  truthy (Some t) = true ->
  request_params params (Some t)
  = [(py "verb", py "ListRecords"); (py "resumptionToken", t)].
Proof. intros Ht. unfold request_params. rewrite Ht. by destruct t. Qed.

(** One turn of the loop, by the reply to its request. *)
Lemma iter_loop_step (server : endpoint) (self : OaiClient)
    (params : list (str * str)) (fuel n : nat) (tok : option str) :
  iter_loop server self params (S fuel) n tok
  = match server n (base_url self) (request_params params tok) with
    | HTTPStatusError status =>
        if truthy tok && (500 <=? status)%Z then ([], Done)
        else ([], Raised (HttpRuntimeError status
                                           (request_params params tok)))
    | OtherError => ([], Raised TransportError)
    | Response None => ([], Raised ParseRuntimeError)
    | RootlessResponse => ([], Raised AttributeError)
    | Response (Some root) =>
        match find_desc root (NS_OAI ++ py "error") with
        | Some error_el =>
            ([], Raised (OaiRuntimeError (get (attrib error_el) (py "code"))
                                         (text error_el)))
        | None =>
            match next_token root with
            | Some token =>
                let '(rest, o) :=
                  iter_loop server self params fuel (S n) (Some token) in
                (page_records root ++ rest, o)
            | None => (page_records root, Done)
            end
        end
    end.
Proof. reflexivity. Qed.

(** A generator still running after at least one request holds a token that
    is not blank. *)
Lemma iter_loop_pending (server : endpoint) (self : OaiClient)
    (params : list (str * str)) (fuel n : nat) (tok tok' : option str)
    (items : list (str * element)) :
  iter_loop server self params fuel n tok = (items, Pending tok') ->
  (fuel = 0%nat /\ tok' = tok /\ items = []) \/ truthy tok' = true.
Proof.
  revert n tok items. induction fuel as [|fuel IH]; intros n tok items.
  - intros [= <- <-]. by left.
  - rewrite iter_loop_step. intros H. right.
    destruct (server n _ _) as [status| |[root|]|]; try done.
    + by destruct (truthy tok && _).
    + destruct (find_desc root _); [done|].
      destruct (next_token root) as [token|] eqn:Htok; [|done].
      destruct (iter_loop server self params fuel (S n) (Some token))
        as [rest o] eqn:Hrest.
      injection H as <- ->.
      apply IH in Hrest as [(_ & -> & _)|Ht]; [|done].
      by eapply next_token_truthy.
Qed.

(** Running longer continues from where the shorter run stands. *)
Lemma iter_loop_resume (server : endpoint) (self : OaiClient)
    (params : list (str * str)) (k f n : nat) (tok tok' : option str)
    (items : list (str * element)) :
  iter_loop server self params k n tok = (items, Pending tok') ->
  iter_loop server self params (k + f) n tok
  = let '(rest, o) := iter_loop server self params f (n + k) tok' in
    (items ++ rest, o).
Proof.
  revert n tok items. induction k as [|k IH]; intros n tok items.
  - intros [= <- <-]. rewrite Nat.add_0_r. simpl.
    by destruct (iter_loop server self params f n tok).
  - change (S k + f)%nat with (S (k + f)). rewrite !iter_loop_step.
    destruct (server n _ _) as [status| |[root|]|]; try done.
    + by destruct (truthy tok && _).
    + destruct (find_desc root _); [done|].
      destruct (next_token root) as [token|]; [|done].
      destruct (iter_loop server self params k (S n) (Some token))
        as [rest o] eqn:Hrest.
      intros [= <- ->]. rewrite (IH _ _ _ Hrest).
      replace (n + S k)%nat with (S n + k)%nat by lia.
      destruct (iter_loop server self params f (S n + k) tok').
      by rewrite app_assoc.
Qed.

(** C1. When the generator, after [k] requests and with a resumption token
    in hand, gets an HTTP status of 500 or more for the request that carries
    the token, it returns without raising: every longer run ends [Done] with
    exactly the pairs yielded from the earlier pages. *)
Theorem C1_server_error_on_continuation_ends_harvest (server : endpoint)
    (self : OaiClient) (from_date until_date : option str) (k : nat)
    (items : list (str * element)) (token : str) (status : Z) :
  iter_records server self k from_date until_date
  = (items, Pending (Some token)) ->
  server k (base_url self)
         [(py "verb", py "ListRecords"); (py "resumptionToken", token)]
  = HTTPStatusError status ->
  (500 <= status)%Z ->
  forall fuel, (k < fuel)%nat ->
    iter_records server self fuel from_date until_date = (items, Done).
Proof.
  unfold iter_records. intros Hk Hreply Hstatus fuel Hfuel.
  assert (truthy (Some token) = true) as Htok.
  { apply iter_loop_pending in Hk as [(_ & [=] & _)|Ht]; done. }
  replace fuel with (k + S (fuel - S k))%nat by lia.
  rewrite (iter_loop_resume _ _ _ _ _ _ _ _ _ Hk), iter_loop_step.
  rewrite (request_params_token _ _ Htok). simpl "+"%nat. rewrite Hreply, Htok.
  apply Z.leb_le in Hstatus. rewrite Hstatus. simpl. by rewrite app_nil_r.
Qed.

(** A two-page sequence whose second page returns HTTP 500 yields exactly
    the records of page 1. *)
Lemma C1_witness :
  iter_records server_500_on_page_2 sample_client 1 None None
  = ([(py "oai:x:1", dc_url_then_handle); (py "oai:x:2", dc_blank_title)],
     Pending (Some (py "t1")))
  /\ server_500_on_page_2 1%nat (base_url sample_client)
       [(py "verb", py "ListRecords"); (py "resumptionToken", py "t1")]
     = HTTPStatusError 500
  /\ iter_records server_500_on_page_2 sample_client 2 None None
     = (page_records page_1, Done)
  /\ page_records page_1
     = [(py "oai:x:1", dc_url_then_handle); (py "oai:x:2", dc_blank_title)].
Proof.
  assert (page_records page_1
          = [(py "oai:x:1", dc_url_then_handle);
             (py "oai:x:2", dc_blank_title)]) as Hpage
    by (vm_compute; reflexivity).
  split_and!; [vm_compute; reflexivity|reflexivity| |exact Hpage].
  rewrite Hpage.
  apply (C1_server_error_on_continuation_ends_harvest server_500_on_page_2
           sample_client None None 1 _ (py "t1") 500).
  - vm_compute. reflexivity.
  - reflexivity.
  - lia.
  - lia.
Defined.

(** A fatal reply makes every longer run raise, after the same pairs, the
    exception the loop has for that reply. *)
Lemma iter_records_fatal (server : endpoint) (self : OaiClient)
    (from_date until_date : option str) (k fuel : nat)
    (items : list (str * element)) (tok : option str) :
  (k < fuel)%nat ->
  iter_records server self k from_date until_date = (items, Pending tok) ->
  fatal_reply tok
    (server k (base_url self)
       (request_params (initial_params self from_date until_date) tok)) ->
  exists e,
    raised_on tok
      (request_params (initial_params self from_date until_date) tok)
      (server k (base_url self)
         (request_params (initial_params self from_date until_date) tok))
    = Some e
    /\ iter_records server self fuel from_date until_date
       = (items, Raised e).
Proof.
  unfold iter_records. intros Hfuel Hk Hfatal.
  replace fuel with (k + S (fuel - S k))%nat by lia.
  rewrite (iter_loop_resume _ _ _ _ _ _ _ _ _ Hk), iter_loop_step.
  simpl "+"%nat. unfold fatal_reply in Hfatal. unfold raised_on.
  destruct (server k _ _) as [status| |[root|]|].
  - assert (truthy tok && (500 <=? status)%Z = false) as ->.
    { destruct Hfatal as [->|[_ Hlt]]; [done|].
      apply andb_false_intro2. by apply Z.leb_gt. }
    eexists. by rewrite app_nil_r.
  - eexists. by rewrite app_nil_r.
  - destruct Hfatal as [error_el ->]. eexists. by rewrite app_nil_r.
  - eexists. by rewrite app_nil_r.
  - eexists. by rewrite app_nil_r.
Qed.

(** ** The connectors *)

Section ConnectorFacts.
Context {L : Library}.

Lemma harvest_loop_harvest_state
    (mapper : datetime -> str -> element -> str -> str ->
              result UnifiedScholarlyRecord)
    (w : world) (inst repo : str) (items : list (str * element)) (k : nat)
    (db db' : database) (count : nat) (res : result nat) :
  harvest_loop mapper w inst repo items k db count = (db', res) ->
  harvest_state db' = harvest_state db.
Proof.
  revert k db count. induction items as [|[oai dc_el] items IH];
    intros k db count; simpl.
  - by intros [= <- _].
  - destruct (mapper _ _ _ _ _) as [record|e].
    + intros H. by apply IH in H.
    + by intros [= <- _].
Qed.

Lemma harvest_loop_count
    (mapper : datetime -> str -> element -> str -> str ->
              result UnifiedScholarlyRecord)
    (w : world) (inst repo : str) (items : list (str * element)) (k : nat)
    (db db' : database) (count c : nat) :
  harvest_loop mapper w inst repo items k db count = (db', Ok c) ->
  c = (count + length items)%nat.
Proof.
  revert k db count. induction items as [|[oai dc_el] items IH];
    intros k db count; simpl.
  - intros [= _ <-]. lia.
  - destruct (mapper _ _ _ _ _) as [record|e]; [|done].
    intros H. apply IH in H. lia.
Qed.

(** The only exception of the mappers is the validation error of the
    model. *)
Lemma map_dspace_Raise (now : datetime) (oai : str)
    (dc_el : element) (inst repo : str) (e : exception) :
  map_dspace_dc_to_record now oai dc_el inst repo = Raise e ->
  e = ValidationError.
Proof.
  unfold map_dspace_dc_to_record, validate_url.
  destruct (first_url _) as [val|]; [|done].
  destruct (HttpUrl_validate val); [done|]. by intros [= <-].
Qed.

(** The two mappers succeed on a pair whose landing page passes. *)
Lemma map_dspace_mappable (now : datetime) (item : str * element)
    (inst repo : str) :
  mappable item ->
  exists r, map_dspace_dc_to_record now item.1 item.2 inst repo = Ok r.
Proof.
  intros [url Hurl]. unfold map_dspace_dc_to_record. rewrite Hurl.
  by eexists.
Qed.

Lemma map_omeka_mappable (now : datetime) (item : str * element)
    (inst repo : str) :
  mappable item ->
  exists r, map_omeka_dc_to_record now item.1 item.2 inst repo = Ok r.
Proof.
  intros [url Hurl]. unfold map_omeka_dc_to_record. rewrite Hurl.
  by eexists.
Qed.

Lemma harvest_loop_raises
    (mapper : datetime -> str -> element -> str -> str ->
              result UnifiedScholarlyRecord)
    (mapper_Raise : forall now oai dc_el inst repo e,
       mapper now oai dc_el inst repo = Raise e -> e = ValidationError)
    (w : world) (inst repo : str)
    (items : list (str * element)) (k : nat) (db db' : database)
    (count : nat) (e : exception) :
  harvest_loop mapper w inst repo items k db count = (db', Raise e) ->
  e = ValidationError.
Proof.
  revert k db count. induction items as [|[oai dc_el] items IH];
    intros k db count; simpl; [done|].
  destruct (mapper _ _ _ _ _) as [record|e'] eqn:Hm; [apply IH|].
  intros [= _ <-]. by eapply mapper_Raise.
Qed.

(** The loop goes through when the mapper succeeds on every pair, and
    counts the pairs. *)
Lemma harvest_loop_total
    (mapper : datetime -> str -> element -> str -> str ->
              result UnifiedScholarlyRecord)
    (w : world) (inst repo : str) (items : list (str * element)) (k : nat)
    (db : database) (count : nat) :
  Forall (fun item => forall now,
            exists r, mapper now item.1 item.2 inst repo = Ok r) items ->
  exists db',
    harvest_loop mapper w inst repo items k db count
    = (db', Ok (count + length items)%nat).
Proof.
  intros Hitems. revert k db count.
  induction Hitems as [|[oai dc_el] items Hitem _ IH]; intros k db count.
  - exists db. simpl. by rewrite Nat.add_0_r.
  - simpl. destruct (Hitem (utcnow w k)) as [r Hr]. simpl in Hr. rewrite Hr.
    destruct (IH (S k) (index_record (utcnow w k) r db) (count + 1)%nat)
      as [db' Hdb'].
    exists db'. rewrite Hdb'. simpl length.
    by replace (count + 1 + length items)%nat
      with (count + S (length items))%nat by lia.
Qed.

End ConnectorFacts.

(** Case analysis of a harvest call in hypothesis [H]: the generator's
    outcome, the loop's result and the test on the count. *)
Ltac harvest_cases H :=
  unfold DspaceConnector.harvest_full, DspaceConnector.harvest_incremental,
    OmekaConnector.harvest_full, OmekaConnector.harvest_incremental in H;
  repeat match type of H with
    | context [iter_records ?s ?c ?f ?a ?b] =>
        destruct (iter_records s c f a b) as [? [|?|?]] eqn:?
    | context [harvest_loop ?m ?w ?i ?r ?it ?k ?d ?c] =>
        let Hloop := fresh "Hloop" in
        destruct (harvest_loop m w i r it k d c) as [? [?|?]] eqn:Hloop;
        pose proof (harvest_loop_harvest_state _ _ _ _ _ _ _ _ _ _ Hloop)
    | context [(0 <? ?c)%nat] => destruct (Nat.ltb_spec 0 c)
    end;
  simplify_eq.

(** C4. For both connectors: a full harvest whose generator returns, every
    record it yielded passing the validation of the model, does return; it
    has then written the current date as the source's watermark, whatever
    the number of records (zero included), and it returns the number of
    pairs the generator yielded. Conversely a full harvest that returns a
    count has written the watermark, and the count is the number of pairs of
    a generator that returned. *)
Theorem C4_full_harvest_sets_watermark {L : Library} (w : world)
    (fuel : nat) (db : database) :
  (forall config items,
     iter_records (server w) (DspaceConnector.client config) fuel None None
     = (items, Done) ->
     Forall mappable items ->
     exists db',
       DspaceConnector.harvest_full w config fuel db
       = Some (db', Ok (length items))
       /\ harvest_state db'
          = <[DspaceConnector.repo_id config := Some (today w)]>
              (harvest_state db))
  /\ (forall config items,
        iter_records (server w) (OmekaConnector.client config) fuel None None
        = (items, Done) ->
        Forall mappable items ->
        exists db',
          OmekaConnector.harvest_full w config fuel db
          = Some (db', Ok (length items))
          /\ harvest_state db'
             = <[OmekaConnector.repo_id config := Some (today w)]>
                 (harvest_state db))
  /\ (forall config db' count,
        DspaceConnector.harvest_full w config fuel db
        = Some (db', Ok count) ->
        harvest_state db'
        = <[DspaceConnector.repo_id config := Some (today w)]>
            (harvest_state db)
        /\ exists items,
             iter_records (server w) (DspaceConnector.client config) fuel
                          None None = (items, Done)
             /\ count = length items)
  /\ (forall config db' count,
        OmekaConnector.harvest_full w config fuel db
        = Some (db', Ok count) ->
        harvest_state db'
        = <[OmekaConnector.repo_id config := Some (today w)]>
            (harvest_state db)
        /\ exists items,
             iter_records (server w) (OmekaConnector.client config) fuel
                          None None = (items, Done)
             /\ count = length items).
Proof.
  split_and!.
  - intros config items Hiter Hitems.
    unfold DspaceConnector.harvest_full. rewrite Hiter.
    destruct (harvest_loop_total map_dspace_dc_to_record w
                (DspaceConnector.institution config)
                (DspaceConnector.repository config) items 0 db 0)
      as [db1 Hloop].
    { eapply Forall_impl; [exact Hitems|].
      intros item Hitem now. by apply map_dspace_mappable. }
    rewrite Hloop. eexists. split; [reflexivity|].
    apply harvest_loop_harvest_state in Hloop. simpl. by rewrite Hloop.
  - intros config items Hiter Hitems.
    unfold OmekaConnector.harvest_full. rewrite Hiter.
    destruct (harvest_loop_total map_omeka_dc_to_record w
                (OmekaConnector.institution config)
                (OmekaConnector.repository config) items 0 db 0)
      as [db1 Hloop].
    { eapply Forall_impl; [exact Hitems|].
      intros item Hitem now. by apply map_omeka_mappable. }
    rewrite Hloop. eexists. split; [reflexivity|].
    apply harvest_loop_harvest_state in Hloop. simpl. by rewrite Hloop.
  - intros config db' count H. harvest_cases H.
    split; [simpl; congruence|]. eexists. split; [done|].
    match goal with
    | Hl : harvest_loop _ _ _ _ _ _ _ _ = _ |- _ =>
        by apply harvest_loop_count in Hl
    end.
  - intros config db' count H. harvest_cases H.
    split; [simpl; congruence|]. eexists. split; [done|].
    match goal with
    | Hl : harvest_loop _ _ _ _ _ _ _ _ = _ |- _ =>
        by apply harvest_loop_count in Hl
    end.
Qed.

(** A full harvest of the DSpace source with zero records returns zero and
    sets the watermark; a full harvest of the Omeka source with one record
    returns one and sets the watermark. *)
Lemma C4_witness :
  (iter_records server_no_records (DspaceConnector.client dspace_config) 1
                None None = ([], Done)
   /\ Forall (mappable (L := sample_library)) []
   /\ exists db',
        DspaceConnector.harvest_full world_no_records dspace_config 1
                                     db_fresh
        = Some (db', Ok 0%nat)
        /\ harvest_state db'
           = <[py "dspace_uclv" := Some sample_today]>
               (harvest_state db_fresh))
  /\ (iter_records server_one_record (OmekaConnector.client omeka_config) 1
                   None None = ([(py "oai:x:1", dc_url_then_handle)], Done)
      /\ Forall (mappable (L := sample_library))
                [(py "oai:x:1", dc_url_then_handle)]
      /\ exists db',
           OmekaConnector.harvest_full world_one_record omeka_config 1
                                       db_harvested
           = Some (db', Ok 1%nat)
           /\ harvest_state db'
              = <[py "omeka_uh" := Some sample_today]>
                  (harvest_state db_harvested))
  /\ (DspaceConnector.harvest_full world_no_records dspace_config 1 db_fresh
      = Some (update_last_harvest_date sample_today (py "dspace_uclv") None
                                       db_fresh, Ok 0%nat)
      /\ harvest_state
           (update_last_harvest_date sample_today (py "dspace_uclv") None
                                     db_fresh)
         = <[py "dspace_uclv" := Some sample_today]> (harvest_state db_fresh)
      /\ exists items,
           iter_records server_no_records
                        (DspaceConnector.client dspace_config) 1 None None
           = (items, Done)
           /\ 0%nat = length items).
Proof.
  assert (iter_records server_no_records
                       (DspaceConnector.client dspace_config) 1 None None
          = ([], Done)) as Hnone by (vm_compute; reflexivity).
  assert (iter_records server_one_record
                       (OmekaConnector.client omeka_config) 1 None None
          = ([(py "oai:x:1", dc_url_then_handle)], Done)) as Hone
    by (vm_compute; reflexivity).
  assert (Forall (mappable (L := sample_library))
                 [(py "oai:x:1", dc_url_then_handle)]) as Hmap.
  { apply Forall_cons_2; [|apply Forall_nil_2].
    exists (Some sample_url_1). vm_compute. reflexivity. }
  assert (DspaceConnector.harvest_full world_no_records dspace_config 1
                                       db_fresh
          = Some (update_last_harvest_date sample_today (py "dspace_uclv")
                                           None db_fresh, Ok 0%nat)) as Hrun
    by (vm_compute; reflexivity).
  split_and!.
  - exact Hnone.
  - apply Forall_nil_2.
  - exact (proj1 (C4_full_harvest_sets_watermark (L := sample_library)
                    world_no_records 1 db_fresh)
                 dspace_config [] Hnone (Forall_nil_2 _)).
  - exact Hone.
  - exact Hmap.
  - exact (proj1 (proj2 (C4_full_harvest_sets_watermark
                           (L := sample_library) world_one_record 1
                           db_harvested))
                 omeka_config _ Hone Hmap).
  - exact Hrun.
  - exact (proj1 (proj1 (proj2 (proj2 (C4_full_harvest_sets_watermark
                                          (L := sample_library)
                                          world_no_records 1 db_fresh)))
                        dspace_config _ 0%nat Hrun)).
  - exact (proj2 (proj1 (proj2 (proj2 (C4_full_harvest_sets_watermark
                                          (L := sample_library)
                                          world_no_records 1 db_fresh)))
                        dspace_config _ 0%nat Hrun)).
Defined.

(** C5. An incremental harvest that returns zero leaves the harvest state
    as it was; one that returns a positive count has written the current
    date as the source's watermark; and one that lets an exception through
    leaves the harvest state as it was, so the watermark moves only with a
    positive count. This for both connectors. *)
Theorem C5_incremental_harvest_watermark {L : Library} (w : world)
    (fuel : nat) (db db' : database) (res : result nat) :
  (forall config,
     DspaceConnector.harvest_incremental w config fuel db = Some (db', res) ->
     match res with
     | Ok O => harvest_state db' = harvest_state db
     | Ok (S _) =>
         harvest_state db'
         = <[DspaceConnector.repo_id config := Some (today w)]>
             (harvest_state db)
     | Raise _ => harvest_state db' = harvest_state db
     end)
  /\ (forall config,
        OmekaConnector.harvest_incremental w config fuel db
        = Some (db', res) ->
        match res with
        | Ok O => harvest_state db' = harvest_state db
        | Ok (S _) =>
            harvest_state db'
            = <[OmekaConnector.repo_id config := Some (today w)]>
                (harvest_state db)
        | Raise _ => harvest_state db' = harvest_state db
        end).
Proof.
  split; intros config H; harvest_cases H; try done;
    match goal with
    | |- match ?c with O => _ | S _ => _ end => destruct c
    end; try lia; simpl; congruence.
Qed.

(** An incremental harvest that finds no record leaves the watermark of
    2024-01-01 in place; one that finds a record moves it to today. *)
Lemma C5_witness :
  (OmekaConnector.harvest_incremental world_no_records omeka_config 1
                                      db_harvested
   = Some (db_harvested, Ok 0%nat)
   /\ harvest_state db_harvested = harvest_state db_harvested)
  /\ (DspaceConnector.harvest_incremental world_one_record dspace_config 1
                                          db_harvested
      = Some (update_last_harvest_date sample_today (py "dspace_uclv") None
                (index_record sample_now record_with_url db_harvested),
              Ok 1%nat)
      /\ harvest_state
           (update_last_harvest_date sample_today (py "dspace_uclv") None
              (index_record sample_now record_with_url db_harvested))
         = <[py "dspace_uclv" := Some sample_today]>
             (harvest_state db_harvested)).
Proof.
  split.
  - assert (OmekaConnector.harvest_incremental world_no_records omeka_config
                                               1 db_harvested
            = Some (db_harvested, Ok 0%nat)) as Hrun
      by (vm_compute; reflexivity).
    split; [exact Hrun|].
    exact (proj2 (C5_incremental_harvest_watermark (L := sample_library)
                    world_no_records 1 db_harvested db_harvested (Ok 0%nat))
                 omeka_config Hrun).
  - assert (DspaceConnector.harvest_incremental world_one_record
                                                dspace_config 1 db_harvested
            = Some (update_last_harvest_date sample_today (py "dspace_uclv")
                      None
                      (index_record sample_now record_with_url db_harvested),
                    Ok 1%nat)) as Hrun
      by (vm_compute; reflexivity).
    split; [exact Hrun|].
    exact (proj1 (C5_incremental_harvest_watermark (L := sample_library)
                    world_one_record 1 db_harvested _ (Ok 1%nat))
                 dspace_config Hrun).
Defined.



(** C9. When the source has no harvest-state row, or its stored date is the
    empty string, the read gives the absent value; the first request of a
    client driven from it has no [from] parameter; and an incremental
    harvest then returns what a full harvest returns and leaves the same
    records indexed. *)
Theorem C9_empty_watermark_reads_as_absent {L : Library} (db : database)
    (repo_id : str) :
  harvest_state db !! repo_id = None
  \/ harvest_state db !! repo_id = Some (Some []) ->
  get_last_harvest_date db repo_id = None
  /\ (forall self until_date,
        get (initial_params self (get_last_harvest_date db repo_id)
                            until_date) (py "from") = None)
  /\ (forall w config fuel db1 res,
        DspaceConnector.repo_id config = repo_id ->
        DspaceConnector.harvest_full w config fuel db = Some (db1, res) ->
        exists db2,
          DspaceConnector.harvest_incremental w config fuel db
          = Some (db2, res)
          /\ records db2 = records db1)
  /\ (forall w config fuel db1 res,
        OmekaConnector.repo_id config = repo_id ->
        OmekaConnector.harvest_full w config fuel db = Some (db1, res) ->
        exists db2,
          OmekaConnector.harvest_incremental w config fuel db
          = Some (db2, res)
          /\ records db2 = records db1).
Proof.
  intros Hrow.
  assert (get_last_harvest_date db repo_id = None) as Hget
    by (unfold get_last_harvest_date; by destruct Hrow as [-> | ->]).
  split_and!; [exact Hget|..].
  - intros self until_date. rewrite Hget. unfold initial_params.
    by destruct (truthy (set_spec self)), (truthy until_date).
  - intros w config fuel db1 res <- H.
    unfold DspaceConnector.harvest_incremental. rewrite Hget.
    harvest_cases H; try (by eexists).
    destruct (0 <? _)%nat; by eexists.
  - intros w config fuel db1 res <- H.
    unfold OmekaConnector.harvest_incremental. rewrite Hget.
    harvest_cases H; try (by eexists).
    destruct (0 <? _)%nat; by eexists.
Qed.

(** With the empty string stored for the DSpace source, the read is absent
    and the incremental harvest fetches the record a full harvest fetches. *)
Lemma C9_witness :
  harvest_state db_empty_watermark !! py "dspace_uclv" = Some (Some [])
  /\ get_last_harvest_date db_empty_watermark (py "dspace_uclv") = None
  /\ get (initial_params sample_client
            (get_last_harvest_date db_empty_watermark (py "dspace_uclv"))
            None) (py "from") = None
  /\ exists db2,
       DspaceConnector.harvest_incremental world_one_record dspace_config 1
                                           db_empty_watermark
       = Some (db2, Ok 1%nat)
       /\ records db2
          = records (update_last_harvest_date sample_today (py "dspace_uclv")
                       None
                       (index_record sample_now record_with_url
                                     db_empty_watermark)).
Proof.
  assert (harvest_state db_empty_watermark !! py "dspace_uclv"
          = Some (Some [])) as Hrow by (vm_compute; reflexivity).
  destruct (C9_empty_watermark_reads_as_absent (L := sample_library)
              db_empty_watermark (py "dspace_uclv") (or_intror Hrow))
    as (Hget & Hfrom & Hdspace & _).
  split_and!; [exact Hrow|exact Hget|apply Hfrom|].
  apply (Hdspace world_one_record dspace_config 1%nat); [reflexivity|].
  vm_compute. reflexivity.
Defined.

(** ** The index *)

Lemma sample_library_laws : LibraryLaws sample_library.
Proof.
  split.
  - intros u. simpl in u. destruct u as [[] c t]; by eexists.
  - done.
Qed.

Lemma or_str_nil (s : str) : or_str (Some s) [] = s.
Proof. by destruct s. Qed.

(** The three lists of a row read back are its columns split again. *)
Lemma row_to_record_lists {L : Library} (r : row)
    (r' : UnifiedScholarlyRecord) :
  _row_to_record r = Ok r' ->
  authors r' = split_column (col_authors r)
  /\ keywords r' = split_column (col_keywords r)
  /\ collections r' = split_column (col_collections r).
Proof.
  unfold _row_to_record. intros H.
  destruct (truthy (col_date_indexed r));
    [destruct (fromisoformat _); [|done]|];
    destruct (required_str (col_id r)); try done;
    destruct (required_str (col_oai_identifier r)); try done;
    destruct (required_str (col_title r)); try done;
    destruct (required_str (col_institution r)); try done;
    destruct (required_str (col_repository r)); try done;
    destruct (validate_url (col_url_landing_page r)); try done;
    by injection H as <-.
Qed.

(** Reading back the row written for a record succeeds exactly when the two
    library conversions do. *)
Lemma row_to_record_converts {L : Library} (now : datetime)
    (record : UnifiedScholarlyRecord) :
  row_converts (record_row now record)
  <-> exists r', _row_to_record (record_row now record) = Ok r'.
Proof.
  unfold row_converts, _row_to_record, record_row, validate_url.
  cbn [col_id col_oai_identifier col_title col_authors col_institution
    col_repository col_date_issued col_type col_url_landing_page
    col_abstract col_keywords col_language col_collections col_date_indexed
    required_str].
  destruct (truthy (Some (isoformat _)));
    [destruct (fromisoformat _)|];
    (destruct (url_landing_page record) as [u|]; simpl;
       [destruct (HttpUrl_validate (HttpUrl_str u))|]).
  all: split; [intros [Hu Hd]|intros [r' Hr']].
  all: match goal with
       | |- exists _, Ok _ = Ok _ => eexists; reflexivity
       | |- exists _, Raise _ = Ok _ =>
           first [by apply is_Some_None in Hu|by apply is_Some_None in Hd]
       | |- _ /\ _ =>
           first [discriminate Hr'
                 |split; first [exact I|eexists; reflexivity]]
       end.
Qed.

(** C10, as amended. Indexing a record stores its row under its id, and the
    conversion of that row back to a record succeeds exactly when the stored
    landing-page text passes validation again and the stored indexing time
    is read by [fromisoformat]. Whenever it succeeds: a list among authors,
    keywords and collections whose entries hold no [";"], are not empty and
    carry no leading or trailing whitespace comes back the same, in the same
    order; a list with an entry that holds a [";"] does not come back as it
    was. *)
Theorem C10_list_round_trip {L : Library} (now : datetime)
    (record : UnifiedScholarlyRecord) (db : database) :
  records (index_record now record db) !! id record
  = Some (record_row now record)
  /\ (row_converts (record_row now record)
      <-> exists r', _row_to_record (record_row now record) = Ok r')
  /\ forall r',
       _row_to_record (record_row now record) = Ok r' ->
       (Forall clean (authors record) -> authors r' = authors record)
       /\ (Forall clean (keywords record) -> keywords r' = keywords record)
       /\ (Forall clean (collections record) ->
           collections r' = collections record)
       /\ (Exists (fun a => SEMICOLON ∈ a) (authors record) ->
           authors r' <> authors record)
       /\ (Exists (fun a => SEMICOLON ∈ a) (keywords record) ->
           keywords r' <> keywords record)
       /\ (Exists (fun a => SEMICOLON ∈ a) (collections record) ->
           collections r' <> collections record).
Proof.
  split_and!; [apply lookup_insert_eq|apply row_to_record_converts|].
  intros r' (Ha & Hk & Hc)%row_to_record_lists.
  cbn [record_row col_authors col_keywords col_collections] in Ha, Hk, Hc.
  split_and!.
  1-3: intros Hclean; by rewrite ?Ha, ?Hk, ?Hc, split_column_join.
  all: intros (a & Hin & Hsemi)%Exists_exists Heq;
    rewrite <- Heq, ?Ha, ?Hk, ?Hc in Hin;
    by apply split_column_no_sep in Hin.
Qed.

(** Decide [SEMICOLON ∉ a] for a given string by evaluation. *)
Ltac no_semicolon := apply (bool_decide_eq_false_1 _); vm_compute; reflexivity.

(** Prove [Forall clean l] for a given list by evaluation. *)
Ltac clean_list :=
  simpl;
  repeat (apply Forall_cons_2;
          [split_and!; [no_semicolon|vm_compute; reflexivity|discriminate]|]);
  apply Forall_nil_2.

(** A record with two authors and three keywords, none with a [";"] or
    padding: its row converts, and the three lists come back as they
    were. *)
Lemma C10_witness :
  Forall clean (authors record_two_authors)
  /\ Forall clean (keywords record_two_authors)
  /\ Forall clean (collections record_two_authors)
  /\ row_converts (L := sample_library)
       (record_row sample_now record_two_authors)
  /\ exists r' : UnifiedScholarlyRecord (L := sample_library),
       _row_to_record (record_row sample_now record_two_authors) = Ok r'
       /\ authors r' = [py "Ana"; py "Luis Ruiz"]
       /\ keywords r' = [py "agua"; py "salud"; py "redes de agua"]
       /\ collections r' = [].
Proof.
  assert (Forall clean (authors record_two_authors)) as Ha by clean_list.
  assert (Forall clean (keywords record_two_authors)) as Hk by clean_list.
  assert (Forall clean (collections record_two_authors)) as Hc
    by clean_list.
  assert (row_converts (L := sample_library)
            (record_row sample_now record_two_authors)) as Hconv.
  { split; vm_compute; eexists; reflexivity. }
  split_and!; [exact Ha|exact Hk|exact Hc|exact Hconv|].
  destruct (C10_list_round_trip (L := sample_library) sample_now
              record_two_authors db_fresh)
    as (_ & Hread & Hlists).
  destruct (proj1 Hread Hconv) as [r' Hr'].
  destruct (Hlists r' Hr') as (Hra & Hrk & Hrc & _).
  exists r'. split_and!; [exact Hr'|exact (Hra Ha)|exact (Hrk Hk)|
                          exact (Hrc Hc)].
Defined.

(** An author with a leading space holds no [";"] and is not blank after
    trimming, yet comes back trimmed. *)
Lemma C10_counterexample :
  Forall (fun a => (SEMICOLON ∉ a) /\ strip a <> [])
         (authors record_padded_author)
  /\ records (index_record sample_now record_padded_author db_fresh)
       !! id record_padded_author
     = Some (record_row sample_now record_padded_author)
  /\ _row_to_record (record_row sample_now record_padded_author)
     = Ok record_padded_author_read
  /\ authors record_padded_author_read <> authors record_padded_author.
Proof.
  split_and!.
  - simpl. apply Forall_cons_2; [|apply Forall_nil_2].
    split; [no_semicolon|vm_compute; discriminate].
  - apply lookup_insert_eq.
  - vm_compute. reflexivity.
  - vm_compute. discriminate.
Qed.

(** * Further properties of the code *)

(** ** The field helpers and the mappers *)

(** X1. [_get_first] returns the first of the values [_get_all] returns for
    the same field, and nothing when [_get_all] returns none. *)
Theorem get_first_is_head_of_get_all (dc_el : element) (tag : str) :
  _get_first dc_el tag = head (_get_all dc_el tag).
Proof.
  unfold _get_first, _get_all.
  induction (findall dc_el (NS_DC ++ tag)) as [|el els IH];
    cbn [first_text all_texts]; [done|].
  by destruct (truthy (Some (strip (text_or_empty el)))).
Qed.

Lemma first_text_stripped (els : list element) (t : str) :
  first_text els = Some t -> stripped t.
Proof. apply first_text_nonblank. Qed.

Lemma all_texts_Forall_stripped (els : list element) :
  Forall stripped (all_texts els).
Proof. apply Forall_forall. intros t. apply all_texts_stripped. Qed.

Lemma first_url_None (vals : list str) :
  first_url vals = None <-> Forall (fun v => looks_like_url v = false) vals.
Proof.
  induction vals as [|v vals IH]; simpl; [by split|].
  destruct (looks_like_url v) eqn:Hv.
  - split; [done|]. intros [? _]%Forall_cons. congruence.
  - rewrite IH. split; [by constructor|by intros [_ ?]%Forall_cons].
Qed.

(** X2. In a mapped record every author and keyword is trimmed and not
    empty, each single-valued field that is present is trimmed and not
    empty, the collections are empty and the indexing time is the clock
    reading of the call. *)
Theorem mapped_values_trimmed {L : Library} (now : datetime) (oai : str)
    (dc_el : element) (inst repo : str) (r : UnifiedScholarlyRecord) :
  map_dspace_dc_to_record now oai dc_el inst repo = Ok r
  \/ map_omeka_dc_to_record now oai dc_el inst repo = Ok r ->
  Forall stripped (authors r)
  /\ Forall stripped (keywords r)
  /\ (forall t, abstract r = Some t \/ date_issued r = Some t
                \/ type r = Some t \/ language r = Some t -> stripped t)
  /\ collections r = []
  /\ date_indexed r = Some now
  /\ institution r = inst /\ repository r = repo.
Proof.
  intros H.
  assert (map_dspace_dc_to_record now oai dc_el inst repo = Ok r) as Hr
    by (destruct H as [H|H]; exact H).
  clear H. unfold map_dspace_dc_to_record in Hr.
  destruct (validate_url _) as [url|e]; [|done]. injection Hr as <-.
  cbn [authors keywords abstract date_issued type language collections
       date_indexed institution repository].
  split_and!; try done.
  - unfold _get_all. destruct (all_texts (findall dc_el (NS_DC ++ py "creator")))
      eqn:Hc; [apply all_texts_Forall_stripped|].
    rewrite <- Hc. apply all_texts_Forall_stripped.
  - apply all_texts_Forall_stripped.
  - unfold _get_first. intros t [Ht|[Ht|[Ht|Ht]]];
      by apply first_text_stripped in Ht.
Qed.

Lemma mapped_values_trimmed_witness :
  map_dspace_dc_to_record (L := sample_library) sample_now (py "oai:x:1")
    dc_url_then_handle (py "UCLV") (py "DSpace UCLV") = Ok record_with_url
  /\ Forall stripped (authors record_with_url)
  /\ collections record_with_url = [].
Proof.
  split; [vm_compute; reflexivity|].
  destruct (mapped_values_trimmed (L := sample_library) sample_now
              (py "oai:x:1") dc_url_then_handle (py "UCLV")
              (py "DSpace UCLV") record_with_url) as (Ha & _ & _ & Hc & _).
  { left. vm_compute. reflexivity. }
  by split.
Defined.

(** X3. The landing page of a mapped record is absent exactly when no
    identifier value begins with [http://] or [https://]. *)
Theorem landing_page_absent_iff {L : Library} (now : datetime) (oai : str)
    (dc_el : element) (inst repo : str) (r : UnifiedScholarlyRecord) :
  map_dspace_dc_to_record now oai dc_el inst repo = Ok r
  \/ map_omeka_dc_to_record now oai dc_el inst repo = Ok r ->
  url_landing_page r = None
  <-> Forall (fun v => looks_like_url v = false)
             (_get_all dc_el (py "identifier")).
Proof.
  intros H.
  assert (map_dspace_dc_to_record now oai dc_el inst repo = Ok r) as Hr
    by (destruct H as [H|H]; exact H).
  apply map_dspace_Ok in Hr as (_ & _ & _ & Hurl).
  rewrite <- first_url_None. unfold validate_url in Hurl.
  destruct (first_url _) as [val|].
  - destruct (HttpUrl_validate val); [|done]. injection Hurl as <-.
    by split.
  - by injection Hurl as <-.
Qed.

Lemma landing_page_absent_iff_witness :
  map_omeka_dc_to_record (L := sample_library) sample_now (py "oai:x:2")
    dc_blank_title (py "UH") (py "Omeka UH") = Ok record_blank_title
  /\ url_landing_page record_blank_title = None
  /\ Forall (fun v => looks_like_url v = false)
            (_get_all dc_blank_title (py "identifier")).
Proof.
  split; [vm_compute; reflexivity|]. split; [reflexivity|].
  apply (landing_page_absent_iff (L := sample_library) sample_now
           (py "oai:x:2") dc_blank_title (py "UH") (py "Omeka UH")
           record_blank_title).
  - right. vm_compute. reflexivity.
  - reflexivity.
Defined.

(** ** The paginated client, further *)

Lemma find_tag (e : element) (t : str) (c : element) :
  find e t = Some c -> tag c = t.
Proof.
  unfold find, findall. intros H%head_Some_elem_of.
  by apply list_elem_of_filter in H as [? _].
Qed.

Lemma record_item_Some (rec : element) (oai : str) (dc_el : element) :
  record_item rec = Some (oai, dc_el) ->
  stripped oai
  /\ (tag dc_el = NS_OAI_DC ++ py "dc" \/ tag dc_el = NS_DC ++ py "dc").
Proof.
  unfold record_item.
  destruct (find rec (NS_OAI ++ py "header")) as [header_el|]; [|done].
  destruct (find header_el _) as [oai_id_el|]; [|done].
  destruct (truthy (Some (strip (text_or_empty oai_id_el)))) eqn:Ht;
    [|done]. cbn [negb].
  destruct (find rec (NS_OAI ++ py "metadata")) as [md_el|]; [|done].
  assert (stripped (strip (text_or_empty oai_id_el))) as Hs
    by (split; [apply strip_idemp|by apply truthy_Some]).
  destruct (find md_el (NS_OAI_DC ++ py "dc")) as [d|] eqn:Hd.
  - intros [= <- <-]. split; [done|]. left. by eapply find_tag.
  - destruct (find md_el (NS_DC ++ py "dc")) as [d|] eqn:Hd'; [|done].
    intros [= <- <-]. split; [done|]. right. by eapply find_tag.
Qed.

Lemma page_records_yielded (root : element) :
  Forall (fun item => stripped item.1
            /\ (tag item.2 = NS_OAI_DC ++ py "dc"
                \/ tag item.2 = NS_DC ++ py "dc"))
         (page_records root).
Proof.
  apply Forall_forall. intros [oai dc_el] Hin. unfold page_records in Hin.
  apply list_elem_of_omap in Hin as (rec & _ & Hrec).
  by apply record_item_Some in Hrec.
Qed.

(** X4. Whatever the endpoint answers and however the run ends, every pair
    the generator yields has an identifier that is trimmed and not empty and
    a metadata element that is an [oai_dc:dc] or a [dc:dc] container. *)
Theorem yielded_pairs_well_formed (server : endpoint) (self : OaiClient)
    (fuel : nat) (from_date until_date : option str)
    (items : list (str * element)) (o : outcome) :
  iter_records server self fuel from_date until_date = (items, o) ->
  Forall (fun item => stripped item.1
            /\ (tag item.2 = NS_OAI_DC ++ py "dc"
                \/ tag item.2 = NS_DC ++ py "dc"))
         items.
Proof.
  unfold iter_records.
  generalize (initial_params self from_date until_date) 0%nat (@None str).
  intros params n tok. revert n tok items o.
  induction fuel as [|fuel IH]; intros n tok items o.
  - by intros [= <- _].
  - rewrite iter_loop_step.
    destruct (server n _ _) as [status| |[root|]|].
    + destruct (truthy tok && _); by intros [= <- _].
    + by intros [= <- _].
    + destruct (find_desc root _); [by intros [= <- _]|].
      destruct (next_token root) as [token|].
      * destruct (iter_loop server self params fuel (S n) (Some token))
          as [rest o'] eqn:Hrest.
        intros [= <- _]. apply Forall_app. split.
        -- apply page_records_yielded.
        -- by eapply IH.
      * intros [= <- _]. apply page_records_yielded.
    + by intros [= <- _].
    + by intros [= <- _].
Qed.

Lemma yielded_pairs_well_formed_witness :
  iter_records server_500_on_page_2 sample_client 1 None None
  = ([(py "oai:x:1", dc_url_then_handle); (py "oai:x:2", dc_blank_title)],
     Pending (Some (py "t1")))
  /\ Forall (fun item => stripped item.1
               /\ (tag item.2 = NS_OAI_DC ++ py "dc"
                   \/ tag item.2 = NS_DC ++ py "dc"))
            [(py "oai:x:1", dc_url_then_handle);
             (py "oai:x:2", dc_blank_title)].
Proof.
  split; [vm_compute; reflexivity|].
  apply (yielded_pairs_well_formed server_500_on_page_2 sample_client 1
           None None _ (Pending (Some (py "t1")))).
  vm_compute. reflexivity.
Defined.

(** X5. When the endpoint serves a sequence of pages, the generator returns
    after yielding the pairs of every page, page after page. *)
Theorem all_pages_in_order (server : endpoint) (self : OaiClient)
    (from_date until_date : option str) (roots : list element) (fuel : nat) :
  serves server self (initial_params self from_date until_date) 0 None
         roots ->
  (length roots <= fuel)%nat ->
  iter_records server self fuel from_date until_date
  = (concat (map page_records roots), Done).
Proof.
  unfold iter_records.
  generalize (initial_params self from_date until_date) 0%nat (@None str).
  intros params n tok. revert n tok fuel.
  induction roots as [|root rest IH]; intros n tok fuel; [done|].
  intros (Hreply & Herr & Hrest) Hfuel.
  destruct fuel as [|fuel]; [simpl in Hfuel; lia|].
  rewrite iter_loop_step, Hreply, Herr. cbn [map concat].
  destruct rest as [|root' rest].
  - rewrite Hrest. simpl. by rewrite app_nil_r.
  - destruct Hrest as (token & -> & Hserves).
    rewrite (IH _ _ fuel Hserves); [done|]. simpl in *. lia.
Qed.

Lemma all_pages_in_order_witness :
  serves server_two_pages sample_client
         (initial_params sample_client None None) 0 None [page_1; page_2]
  /\ iter_records server_two_pages sample_client 2 None None
     = ([(py "oai:x:1", dc_url_then_handle); (py "oai:x:2", dc_blank_title);
         (py "oai:x:3", dc_handle_then_url)], Done).
Proof.
  assert (serves server_two_pages sample_client
            (initial_params sample_client None None) 0 None
            [page_1; page_2]) as Hserves.
  { split_and!; [reflexivity|vm_compute; reflexivity|].
    exists (py "t1"). split; [vm_compute; reflexivity|].
    split_and!; [reflexivity|vm_compute; reflexivity..]. }
  split; [exact Hserves|].
  rewrite (all_pages_in_order server_two_pages sample_client None None
             [page_1; page_2] 2 Hserves); [|simpl; lia].
  vm_compute. reflexivity.
Defined.

(** X6. Once a resumption token is in hand the rest of the run does not
    depend on the parameters of the first request (metadata format, set,
    date bounds): the continuation requests carry the token alone. *)
Theorem continuation_ignores_filters (server : endpoint) (self : OaiClient)
    (params params' : list (str * str)) (fuel n : nat) (token : str) :
  truthy (Some token) = true ->
  iter_loop server self params fuel n (Some token)
  = iter_loop server self params' fuel n (Some token).
Proof.
  revert n token. induction fuel as [|fuel IH]; intros n token Ht; [done|].
  rewrite !iter_loop_step, !(request_params_token _ _ Ht).
  destruct (server n _ _) as [status| |[root|]|]; try done.
  destruct (find_desc root _); [done|].
  destruct (next_token root) as [token'|] eqn:Htok; [|done].
  by rewrite (IH _ _ (next_token_truthy _ _ Htok)).
Qed.

Lemma continuation_ignores_filters_witness :
  truthy (Some (py "t1")) = true
  /\ iter_loop server_two_pages sample_client
       (initial_params sample_client None None) 3 1 (Some (py "t1"))
     = iter_loop server_two_pages sample_client
         (initial_params sample_client (Some (py "2024-01-01")) None) 3 1
         (Some (py "t1")).
Proof.
  split; [reflexivity|].
  by apply continuation_ignores_filters.
Defined.

(** X7. With a token in hand, a failure of the request that is not an HTTP
    status (a timeout, a refused connection), an HTTP status below 500, a
    body the parser rejects, a body in which the parser finds no document
    (the lookup on the missing root then fails with an [AttributeError]) and
    a document with an [oai:error] element all make the generator raise
    after the pairs already yielded; only a status of 500 or more ends the
    run quietly. *)
Theorem failure_on_continuation_raises (server : endpoint)
    (self : OaiClient) (from_date until_date : option str) (k fuel : nat)
    (items : list (str * element)) (token : str) :
  iter_records server self k from_date until_date
  = (items, Pending (Some token)) ->
  (k < fuel)%nat ->
  match server k (base_url self)
               [(py "verb", py "ListRecords"); (py "resumptionToken", token)]
  with
  | OtherError =>
      iter_records server self fuel from_date until_date
      = (items, Raised TransportError)
  | HTTPStatusError status =>
      (status < 500)%Z ->
      iter_records server self fuel from_date until_date
      = (items,
         Raised (HttpRuntimeError status
                   [(py "verb", py "ListRecords");
                    (py "resumptionToken", token)]))
  | Response None =>
      iter_records server self fuel from_date until_date
      = (items, Raised ParseRuntimeError)
  | RootlessResponse =>
      iter_records server self fuel from_date until_date
      = (items, Raised AttributeError)
  | Response (Some root) =>
      forall error_el,
        find_desc root (NS_OAI ++ py "error") = Some error_el ->
        iter_records server self fuel from_date until_date
        = (items,
           Raised (OaiRuntimeError (get (attrib error_el) (py "code"))
                                   (text error_el)))
  end.
Proof.
  unfold iter_records. intros Hk Hfuel.
  assert (truthy (Some token) = true) as Htok.
  { apply iter_loop_pending in Hk as [(_ & [=] & _)|Ht]; done. }
  replace fuel with (k + S (fuel - S k))%nat by lia.
  rewrite (iter_loop_resume _ _ _ _ _ _ _ _ _ Hk), iter_loop_step.
  rewrite (request_params_token _ _ Htok). simpl "+"%nat.
  destruct (server k _ _) as [status| |[root|]|].
  - intros Hlt. apply Z.leb_gt in Hlt. rewrite Hlt, andb_false_r.
    by rewrite app_nil_r.
  - by rewrite app_nil_r.
  - intros error_el ->. by rewrite app_nil_r.
  - by rewrite app_nil_r.
  - by rewrite app_nil_r.
Qed.

Lemma failure_on_continuation_raises_witness :
  (iter_records server_timeout_on_page_2 sample_client 1 None None
   = ([(py "oai:x:1", dc_url_then_handle); (py "oai:x:2", dc_blank_title)],
      Pending (Some (py "t1")))
   /\ iter_records server_timeout_on_page_2 sample_client 2 None None
      = ([(py "oai:x:1", dc_url_then_handle);
          (py "oai:x:2", dc_blank_title)],
         Raised TransportError))
  /\ (iter_records server_rootless_on_page_2 sample_client 1 None None
      = ([(py "oai:x:1", dc_url_then_handle);
          (py "oai:x:2", dc_blank_title)],
         Pending (Some (py "t1")))
      /\ iter_records server_rootless_on_page_2 sample_client 2 None None
         = ([(py "oai:x:1", dc_url_then_handle);
             (py "oai:x:2", dc_blank_title)],
            Raised AttributeError)).
Proof.
  assert (iter_records server_timeout_on_page_2 sample_client 1 None None
          = ([(py "oai:x:1", dc_url_then_handle);
              (py "oai:x:2", dc_blank_title)],
             Pending (Some (py "t1")))) as Hk by (vm_compute; reflexivity).
  assert (iter_records server_rootless_on_page_2 sample_client 1 None None
          = ([(py "oai:x:1", dc_url_then_handle);
              (py "oai:x:2", dc_blank_title)],
             Pending (Some (py "t1")))) as Hk' by (vm_compute; reflexivity).
  split; split; [exact Hk| |exact Hk'|].
  - exact (failure_on_continuation_raises server_timeout_on_page_2
             sample_client None None 1 2 _ (py "t1") Hk (le_n 2)).
  - exact (failure_on_continuation_raises server_rootless_on_page_2
             sample_client None None 1 2 _ (py "t1") Hk' (le_n 2)).
Defined.

Lemma rstrip_chars_spec (chars s : str) :
  exists q,
    s = rstrip_chars chars s ++ q
    /\ Forall (fun c => existsb (N.eqb c) chars = true) q
    /\ forall c, last (rstrip_chars chars s) = Some c ->
                 existsb (N.eqb c) chars = false.
Proof.
  induction s as [|c s (q & Hs & Hq & Hlast)]; [by exists []|].
  cbn [rstrip_chars]. destruct (rstrip_chars chars s) as [|d t] eqn:Hr.
  - destruct (existsb (N.eqb c) chars) eqn:Hc.
    + exists (c :: s). split_and!; [done| |done].
      simpl in Hs. subst q. by constructor.
    + exists q. simpl in Hs. subst q. split_and!; [done..|].
      by intros ? [= <-].
  - exists q. split_and!; [by rewrite Hs at 1|done|].
    intros c'. rewrite last_cons_cons. apply Hlast.
Qed.

(** X8. The client keeps the base URL it is given without its trailing
    question marks: what it drops is a run of [?] at the end, and what it
    keeps does not end with [?]. The other settings are kept as given. *)
Theorem client_base_url_without_question_mark (url prefix : str)
    (spec : option str) (t : Z) :
  let self := OaiClient_init url prefix spec t in
  (exists q, url = base_url self ++ q /\ Forall (fun c => c = 63) q)
  /\ last (base_url self) <> Some 63
  /\ metadata_prefix self = prefix /\ set_spec self = spec
  /\ timeout self = t.
Proof.
  cbn [OaiClient_init base_url metadata_prefix set_spec timeout].
  destruct (rstrip_chars_spec (py "?") url) as (q & Hu & Hq & Hlast).
  split_and!; try done.
  - exists q. split; [done|]. eapply Forall_impl; [exact Hq|].
    intros c Hc. change (py "?") with [63] in Hc. cbn [existsb] in Hc.
    rewrite orb_false_r in Hc. by apply N.eqb_eq in Hc.
  - intros Hl. by apply Hlast in Hl.
Qed.

(** X9. The first request always carries [verb=ListRecords] and the metadata
    format; it carries [set], [from] and [until] exactly when the client's
    set and the given bounds are non-empty strings, with those values; and
    no parameter appears twice. *)
Theorem initial_params_fields (self : OaiClient)
    (from_date until_date : option str) :
  let params := initial_params self from_date until_date in
  get params (py "verb") = Some (py "ListRecords")
  /\ get params (py "metadataPrefix") = Some (metadata_prefix self)
  /\ get params (py "set")
     = (if truthy (set_spec self) then set_spec self else None)
  /\ get params (py "from")
     = (if truthy from_date then from_date else None)
  /\ get params (py "until")
     = (if truthy until_date then until_date else None)
  /\ NoDup (map fst params).
Proof.
  unfold initial_params.
  destruct (set_spec self) as [[|c1 s1]|], from_date as [[|c2 s2]|],
    until_date as [[|c3 s3]|]; cbn [truthy or_str app];
    (split_and!; [reflexivity..|]);
    cbn [map fst]; repeat (apply NoDup_cons; split;
      [apply (bool_decide_eq_false_1 _); vm_compute; reflexivity|]);
    apply NoDup_nil_2.
Qed.

(** ** The harvest state store *)

(** X10. After the harvest state of a source is set, reading it gives the
    date written (today when none is given), or nothing when that date is
    the empty string; the other sources read as before, the indexed records
    are untouched, and of two writes for a source the last one wins. *)
Theorem harvest_state_set_then_get (today repo_id : str)
    (date_str : option str) (db : database) :
  let db' := update_last_harvest_date today repo_id date_str db in
  get_last_harvest_date db' repo_id
  = (if truthy (Some (default today date_str))
     then Some (default today date_str) else None)
  /\ (forall other, other <> repo_id ->
        get_last_harvest_date db' other = get_last_harvest_date db other)
  /\ records db' = records db
  /\ (forall today2 date2,
        update_last_harvest_date today2 repo_id date2 db'
        = update_last_harvest_date today2 repo_id date2 db).
Proof.
  cbn zeta. unfold get_last_harvest_date, update_last_harvest_date.
  cbn [harvest_state records]. split_and!.
  - rewrite lookup_insert_eq. by destruct (default today date_str).
  - intros other Hne. by rewrite lookup_insert_ne.
  - done.
  - intros today2 date2. by rewrite insert_insert_eq.
Qed.

Lemma harvest_state_set_then_get_witness :
  get_last_harvest_date
    (update_last_harvest_date sample_today (py "dspace_uclv") None
                              db_harvested) (py "dspace_uclv")
  = Some sample_today
  /\ get_last_harvest_date
       (update_last_harvest_date sample_today (py "dspace_uclv") None
                                 db_harvested) (py "omeka_uh")
     = Some (py "2024-01-01").
Proof.
  destruct (harvest_state_set_then_get sample_today (py "dspace_uclv") None
              db_harvested) as (Hget & Hother & _).
  split; [exact Hget|].
  rewrite Hother; [vm_compute; reflexivity|discriminate].
Defined.

(** ** The index, further *)

(** X11. [index_record] is an upsert by [id]: the row of the record is
    stored under its id, the rows of the other ids and the harvest state are
    untouched, and indexing a second record with the same id leaves what
    indexing the second alone leaves. *)
Theorem index_record_upsert {L : Library} (now : datetime)
    (record : UnifiedScholarlyRecord) (db : database) :
  let db' := index_record now record db in
  records db' !! id record = Some (record_row now record)
  /\ (forall key, key <> id record -> records db' !! key = records db !! key)
  /\ harvest_state db' = harvest_state db
  /\ (forall now2 record2,
        id record2 = id record ->
        index_record now2 record2 db' = index_record now2 record2 db).
Proof.
  cbn zeta. unfold index_record. cbn [records harvest_state]. split_and!.
  - apply lookup_insert_eq.
  - intros key Hne. by apply lookup_insert_ne.
  - done.
  - intros now2 record2 ->. by rewrite insert_insert_eq.
Qed.

Lemma index_record_upsert_witness :
  records (index_record sample_now record_two_authors
             (index_record sample_now record_with_url db_fresh))
    !! py "oai:x:1"
  = Some (record_row sample_now record_with_url).
Proof.
  destruct (index_record_upsert (L := sample_library) sample_now
              record_two_authors
              (index_record sample_now record_with_url db_fresh))
    as (_ & Hother & _).
  rewrite (Hother (py "oai:x:1")); [|discriminate].
  apply (index_record_upsert (L := sample_library)).
Defined.

Lemma strip_nonblank_stripped (parts : list str) (a : str) :
  a ∈ strip_nonblank parts -> stripped a.
Proof.
  induction parts as [|p parts IH]; cbn [strip_nonblank];
    [by intros ?%elem_of_nil|].
  destruct (truthy (Some (strip p))) eqn:Ht; [|exact IH].
  intros [->|H]%elem_of_cons; [|by apply IH].
  split; [apply strip_idemp|by apply truthy_Some].
Qed.

(** X12. Every entry read back from a list column is clean (no semicolon,
    trimmed, not empty), a [NULL] or empty column reads as the empty list,
    and writing back what was read and reading again gives the same list. *)
Theorem split_column_clean (column : option str) :
  Forall clean (split_column column)
  /\ split_column None = []
  /\ split_column (Some []) = []
  /\ split_column (Some (join (py "; ") (split_column column)))
     = split_column column.
Proof.
  assert (Forall clean (split_column column)) as Hclean.
  { apply Forall_forall. intros a Ha. split.
    - by apply split_column_no_sep in Ha.
    - by apply strip_nonblank_stripped in Ha. }
  split_and!; [exact Hclean|done|done|by apply split_column_join].
Qed.

(** Reading back the row written for a record gives every field but the
    URL as a function of the record's. *)
Lemma row_to_record_fields {L : Library} {laws : LibraryLaws L}
    (now : datetime) (record : UnifiedScholarlyRecord) :
  exists r', _row_to_record (record_row now record) = Ok r'
    /\ id r' = id record /\ oai_identifier r' = oai_identifier record
    /\ title r' = title record /\ institution r' = institution record
    /\ repository r' = repository record
    /\ date_issued r' = date_issued record /\ type r' = type record
    /\ abstract r' = abstract record /\ language r' = language record
    /\ authors r' = split_column (Some (join (py "; ") (authors record)))
    /\ keywords r' = split_column (Some (join (py "; ") (keywords record)))
    /\ collections r'
       = split_column (Some (join (py "; ") (collections record)))
    /\ date_indexed r'
       = (if truthy (Some (isoformat (default now (date_indexed record))))
          then Some (default now (date_indexed record)) else None)
    /\ (url_landing_page r' = None <-> url_landing_page record = None).
Proof.
  unfold _row_to_record, record_row. cbn [col_id col_oai_identifier col_title
    col_authors col_institution col_repository col_date_issued col_type
    col_url_landing_page col_abstract col_keywords col_language
    col_collections col_date_indexed required_str].
  rewrite or_str_nil, fromisoformat_isoformat.
  assert (exists url,
            validate_url (HttpUrl_str <$> url_landing_page record) = Ok url
            /\ (url = None <-> url_landing_page record = None))
    as (url & -> & Hurl).
  { destruct (url_landing_page record) as [u|]; simpl; [|by eexists].
    destruct (HttpUrl_validate_str u) as [v ->]. by eexists. }
  destruct (truthy _); eexists; by split_and!.
Qed.

(** X13. For a record whose three lists hold clean entries and whose
    indexing time has a non-empty ISO text, converting the row written for
    it back succeeds, the libraries reading their own text, and gives a
    record with the same id, OAI identifier, title, authors, institution,
    repository, date issued, type, abstract, keywords, language and
    collections. Two fields are not plain copies: the indexing time read
    back is the record's own when the record has one and the clock reading
    at indexing when it has none, so a record without indexing time does
    not read back equal; and the landing page is present exactly when the
    record's is. *)
Theorem record_round_trip {L : Library} {laws : LibraryLaws L}
    (now : datetime) (record : UnifiedScholarlyRecord) :
  Forall clean (authors record) -> Forall clean (keywords record) ->
  Forall clean (collections record) ->
  isoformat (default now (date_indexed record)) <> [] ->
  exists r', _row_to_record (record_row now record) = Ok r'
    /\ id r' = id record /\ oai_identifier r' = oai_identifier record
    /\ title r' = title record /\ authors r' = authors record
    /\ institution r' = institution record
    /\ repository r' = repository record
    /\ date_issued r' = date_issued record /\ type r' = type record
    /\ abstract r' = abstract record /\ keywords r' = keywords record
    /\ language r' = language record
    /\ collections r' = collections record
    /\ date_indexed r' = Some (default now (date_indexed record))
    /\ (is_Some (date_indexed record) ->
        date_indexed r' = date_indexed record)
    /\ (date_indexed record = None -> date_indexed r' = Some now)
    /\ (url_landing_page r' = None <-> url_landing_page record = None).
Proof.
  intros Ha Hk Hc Hiso.
  destruct (row_to_record_fields now record)
    as (r' & Hr' & ? & ? & ? & ? & ? & ? & ? & ? & ? & Hra & Hrk & Hrc
        & Hd & ?).
  apply truthy_Some in Hiso. rewrite Hiso in Hd.
  rewrite split_column_join in Hra, Hrk, Hrc by done.
  exists r'. split_and!; try done.
  - intros [d Hsome]. by rewrite Hd, Hsome.
  - intros Hnone. by rewrite Hd, Hnone.
Qed.

Lemma record_round_trip_witness :
  LibraryLaws sample_library
  /\ Forall clean (authors record_two_authors)
  /\ Forall clean (keywords record_two_authors)
  /\ Forall clean (collections record_two_authors)
  /\ isoformat (Library := sample_library)
       (default sample_now (date_indexed record_two_authors)) <> []
  /\ exists r' : UnifiedScholarlyRecord (L := sample_library),
       _row_to_record (record_row sample_now record_two_authors) = Ok r'
       /\ title r' = py "Agua potable"
       /\ authors r' = [py "Ana"; py "Luis Ruiz"]
       /\ date_issued r' = Some (py "2020").
Proof.
  assert (Forall clean (authors record_two_authors)) as Ha by clean_list.
  assert (Forall clean (keywords record_two_authors)) as Hk by clean_list.
  assert (Forall clean (collections record_two_authors)) as Hc
    by clean_list.
  assert (isoformat (Library := sample_library)
            (default sample_now (date_indexed record_two_authors)) <> [])
    as Hiso by (vm_compute; discriminate).
  split_and!; [exact sample_library_laws|exact Ha|exact Hk|exact Hc|
               exact Hiso|].
  destruct (record_round_trip (L := sample_library)
              (laws := sample_library_laws) sample_now record_two_authors
              Ha Hk Hc Hiso)
    as (r' & Hr' & _ & _ & Ht & Hra & _ & _ & Hdi & _).
  exists r'. by split_and!.
Defined.

(** X14. In a database written by this code every stored row converts back
    to a record, and that record's id is the key the row is stored under:
    the conversions a search makes on its result rows do not raise. *)
Theorem stored_rows_read_back {L : Library} {laws : LibraryLaws L}
    (db : database) :
  written db ->
  forall key rw, records db !! key = Some rw ->
    exists r, _row_to_record rw = Ok r /\ id r = key.
Proof.
  induction 1 as [states|now record db Hdb IH|today repo_id date_str db Hdb IH];
    intros key rw; cbn [records index_record update_last_harvest_date].
  - by rewrite lookup_empty.
  - destruct (decide (key = id record)) as [->|Hne].
    + rewrite lookup_insert_eq. intros [= <-].
      destruct (row_to_record_fields now record) as (r' & Hr' & Hid & _).
      by exists r'.
    + rewrite lookup_insert_ne by done. apply IH.
  - apply IH.
Qed.

Lemma stored_rows_read_back_witness :
  LibraryLaws sample_library
  /\ written (L := sample_library)
       (update_last_harvest_date sample_today (py "dspace_uclv") None
          (index_record sample_now record_with_url db_fresh))
  /\ exists r : UnifiedScholarlyRecord (L := sample_library),
       _row_to_record (record_row sample_now record_with_url) = Ok r
       /\ id r = py "oai:x:1".
Proof.
  assert (written (L := sample_library)
            (update_last_harvest_date sample_today (py "dspace_uclv") None
               (index_record sample_now record_with_url db_fresh)))
    as Hw by (repeat constructor).
  split_and!; [exact sample_library_laws|exact Hw|].
  apply (stored_rows_read_back (L := sample_library)
           (laws := sample_library_laws) _ Hw (py "oai:x:1")).
  apply lookup_insert_eq.
Defined.

(** ** The connectors, further *)

Lemma iter_records_first_failure (server : endpoint) (self : OaiClient)
    (from_date until_date : option str) (fuel : nat) (e : exception) :
  first_failure (initial_params self from_date until_date)
    (server 0%nat (base_url self)
            (initial_params self from_date until_date)) = Some e ->
  (0 < fuel)%nat ->
  iter_records server self fuel from_date until_date = ([], Raised e).
Proof.
  unfold iter_records, first_failure. intros He Hfuel.
  destruct fuel as [|fuel]; [lia|]. rewrite iter_loop_step.
  change (request_params (initial_params self from_date until_date) None)
    with (initial_params self from_date until_date).
  destruct (server 0%nat _ _) as [status| |[root|]|].
  - by injection He as <-.
  - by injection He as <-.
  - destruct (find_desc root _); [|done]. by injection He as <-.
  - by injection He as <-.
  - by injection He as <-.
Qed.

(** Unfold the four harvest calls in the goal. *)
Ltac unfold_harvest :=
  unfold DspaceConnector.harvest_full, DspaceConnector.harvest_incremental,
    OmekaConnector.harvest_full, OmekaConnector.harvest_incremental.

(** X15. When the first request of a harvest fails (an HTTP error status of
    any class, another transport failure, a body the parser rejects, a body
    in which the parser finds no document, which ends in an
    [AttributeError], or a document with an [oai:error], even one that also
    holds records), the harvest raises that exception and leaves the whole
    database as it was: no record indexed, no watermark written. This in
    both modes of both connectors. *)
Theorem first_request_failure_changes_nothing {L : Library} (w : world)
    (db : database) (fuel : nat) (e : exception) :
  (0 < fuel)%nat ->
  (forall config,
     let self := DspaceConnector.client config in
     first_failure (initial_params self None None)
       (server w 0%nat (base_url self) (initial_params self None None))
     = Some e ->
     DspaceConnector.harvest_full w config fuel db = Some (db, Raise e))
  /\ (forall config,
        let self := DspaceConnector.client config in
        let last := get_last_harvest_date db
                      (DspaceConnector.repo_id config) in
        first_failure (initial_params self last None)
          (server w 0%nat (base_url self) (initial_params self last None))
        = Some e ->
        DspaceConnector.harvest_incremental w config fuel db
        = Some (db, Raise e))
  /\ (forall config,
        let self := OmekaConnector.client config in
        first_failure (initial_params self None None)
          (server w 0%nat (base_url self) (initial_params self None None))
        = Some e ->
        OmekaConnector.harvest_full w config fuel db = Some (db, Raise e))
  /\ (forall config,
        let self := OmekaConnector.client config in
        let last := get_last_harvest_date db
                      (OmekaConnector.repo_id config) in
        first_failure (initial_params self last None)
          (server w 0%nat (base_url self) (initial_params self last None))
        = Some e ->
        OmekaConnector.harvest_incremental w config fuel db
        = Some (db, Raise e)).
Proof.
  intros Hfuel. split_and!; intros config; cbn zeta; intros He;
    unfold_harvest;
    by rewrite (iter_records_first_failure _ _ _ _ _ _ He Hfuel).
Qed.

(** An incremental harvest answered with [noRecordsMatch] raises instead of
    returning zero, and changes nothing; a full harvest answered with a body
    that holds no document raises an [AttributeError] and changes
    nothing. *)
Lemma first_request_failure_changes_nothing_witness :
  (first_failure
     (initial_params (DspaceConnector.client dspace_config)
        (get_last_harvest_date db_harvested (py "dspace_uclv")) None)
     (Response (Some page_no_records_match))
   = Some (OaiRuntimeError (Some (py "noRecordsMatch"))
                           (Some (py "No matches")))
   /\ DspaceConnector.harvest_incremental world_no_records_match
        dspace_config 1 db_harvested
      = Some (db_harvested,
              Raise (OaiRuntimeError (Some (py "noRecordsMatch"))
                                     (Some (py "No matches")))))
  /\ (first_failure
        (initial_params (OmekaConnector.client omeka_config) None None)
        RootlessResponse
      = Some AttributeError
      /\ OmekaConnector.harvest_full world_rootless omeka_config 1
                                     db_harvested
         = Some (db_harvested, Raise AttributeError)).
Proof.
  split; (split; [vm_compute; reflexivity|]).
  - apply (proj1 (proj2 (first_request_failure_changes_nothing
                           (L := sample_library) world_no_records_match
                           db_harvested 1 _ (le_n 1)))).
    vm_compute. reflexivity.
  - apply (proj1 (proj2 (proj2 (first_request_failure_changes_nothing
                                  (L := sample_library) world_rootless
                                  db_harvested 1 _ (le_n 1))))).
    reflexivity.
Defined.

Section LoopFacts.
Context {L : Library}.
Variable mapper : datetime -> str -> element -> str -> str ->
                  result UnifiedScholarlyRecord.
Hypothesis mapper_Ok : forall now oai dc_el inst repo r,
  mapper now oai dc_el inst repo = Ok r ->
  id r = oai /\ oai_identifier r = oai
  /\ institution r = inst /\ repository r = repo.
Hypothesis mapper_Raise : forall now oai dc_el inst repo e,
  mapper now oai dc_el inst repo = Raise e -> e = ValidationError.

Lemma harvest_loop_keeps_rows (w : world) (inst repo : str)
    (items : list (str * element)) (k : nat) (db db' : database)
    (count : nat) (res : result nat) :
  harvest_loop mapper w inst repo items k db count = (db', res) ->
  forall key, is_Some (records db !! key) -> is_Some (records db' !! key).
Proof.
  revert k db count. induction items as [|[oai dc_el] items IH];
    intros k db count; simpl.
  - by intros [= <- _].
  - destruct (mapper _ _ _ _ _) as [record|e]; [|by intros [= <- _]].
    intros H key Hkey. apply (IH _ _ _ H). cbn [index_record records].
    destruct (decide (key = id record)) as [->|Hne].
    + by rewrite lookup_insert_eq.
    + by rewrite lookup_insert_ne.
Qed.

Lemma harvest_loop_holds_rows (w : world) (inst repo : str)
    (items : list (str * element)) (k : nat) (db db' : database)
    (count c : nat) :
  harvest_loop mapper w inst repo items k db count = (db', Ok c) ->
  forall key,
    (key ∈ items.*1 -> holds_row db' inst repo key)
    /\ (key ∉ items.*1 -> records db' !! key = records db !! key).
Proof.
  revert k db count. induction items as [|[oai dc_el] items IH];
    intros k db count; simpl.
  - intros [= <- _] key. split; [by intros ?%elem_of_nil|done].
  - destruct (mapper _ _ _ _ _) as [record|e] eqn:Hm; [|done].
    apply mapper_Ok in Hm as (Hid & Hoai & Hinst & Hrepo).
    intros H key. destruct (IH _ _ _ H key) as [Hin Hout]. split.
    + intros [->|Hkey]%elem_of_cons.
      * destruct (decide (oai ∈ items.*1)) as [Hoin|Hnin]; [by apply Hin|].
        exists (record_row (utcnow w k) record).
        rewrite (Hout Hnin). cbn [index_record records record_row col_id
          col_oai_identifier col_institution col_repository].
        rewrite Hid, Hoai, Hinst, Hrepo.
        split; [apply lookup_insert_eq|done].
      * by apply Hin.
    + intros [Hne Hnin]%not_elem_of_cons. rewrite (Hout Hnin).
      cbn [index_record records]. rewrite lookup_insert_ne; [done|].
      by rewrite Hid.
Qed.

End LoopFacts.

Lemma map_dspace_Ok_labels {L : Library} (now : datetime) (oai : str)
    (dc_el : element) (inst repo : str) (r : UnifiedScholarlyRecord) :
  map_dspace_dc_to_record now oai dc_el inst repo = Ok r ->
  id r = oai /\ oai_identifier r = oai
  /\ institution r = inst /\ repository r = repo.
Proof.
  unfold map_dspace_dc_to_record.
  destruct (validate_url _); [|done]. by intros [= <-].
Qed.

(** Settle the two parts of [harvest_indexes_what_it_yields] for one harvest
    call, after [harvest_cases]. *)
Ltac harvest_rows :=
  split;
  [ intros key Hkey; cbn [update_last_harvest_date records];
    match goal with
    | Hl : harvest_loop _ _ _ _ _ _ _ _ = _ |- _ =>
        by apply (harvest_loop_keeps_rows _ _ _ _ _ _ _ _ _ _ Hl)
    end
  | intros Hne items' o' Hit key Hin; simplify_eq;
    cbn [update_last_harvest_date records holds_row];
    match goal with
    | Hl : harvest_loop _ _ _ _ _ _ _ _ = (_, Ok _) |- _ =>
        by apply (harvest_loop_holds_rows _ map_dspace_Ok_labels
                    _ _ _ _ _ _ _ _ _ Hl)
    | Hl : harvest_loop _ _ _ _ _ _ _ _ = (_, Raise _) |- _ =>
        apply (harvest_loop_raises _ map_dspace_Raise) in Hl; congruence
    end ].



(** A status of 500 or more for the request that carries the token ends the
    run: the statement of the soft end, for the proofs below. *)
Lemma iter_records_soft_end (server : endpoint) (self : OaiClient)
    (from_date until_date : option str) (k fuel : nat)
    (items : list (str * element)) (token : str) (status : Z) :
  iter_records server self k from_date until_date
  = (items, Pending (Some token)) ->
  server k (base_url self)
         [(py "verb", py "ListRecords"); (py "resumptionToken", token)]
  = HTTPStatusError status ->
  (500 <= status)%Z -> (k < fuel)%nat ->
  iter_records server self fuel from_date until_date = (items, Done).
Proof.
  unfold iter_records. intros Hk Hreply Hstatus Hfuel.
  assert (truthy (Some token) = true) as Htok.
  { apply iter_loop_pending in Hk as [(_ & [=] & _)|Ht]; done. }
  replace fuel with (k + S (fuel - S k))%nat by lia.
  rewrite (iter_loop_resume _ _ _ _ _ _ _ _ _ Hk), iter_loop_step.
  rewrite (request_params_token _ _ Htok). simpl "+"%nat.
  rewrite Hreply, Htok. apply Z.leb_le in Hstatus. rewrite Hstatus.
  simpl. by rewrite app_nil_r.
Qed.



(** X18. A harvest of one source never changes the watermark of another
    source, however it ends. This in both modes of both connectors. *)
Theorem harvest_leaves_other_sources {L : Library} (w : world) (fuel : nat)
    (db db' : database) (res : result nat) (other : str) :
  (forall config,
     DspaceConnector.harvest_full w config fuel db = Some (db', res) ->
     other <> DspaceConnector.repo_id config ->
     harvest_state db' !! other = harvest_state db !! other)
  /\ (forall config,
        DspaceConnector.harvest_incremental w config fuel db
        = Some (db', res) ->
        other <> DspaceConnector.repo_id config ->
        harvest_state db' !! other = harvest_state db !! other)
  /\ (forall config,
        OmekaConnector.harvest_full w config fuel db = Some (db', res) ->
        other <> OmekaConnector.repo_id config ->
        harvest_state db' !! other = harvest_state db !! other)
  /\ (forall config,
        OmekaConnector.harvest_incremental w config fuel db
        = Some (db', res) ->
        other <> OmekaConnector.repo_id config ->
        harvest_state db' !! other = harvest_state db !! other).
Proof.
  split_and!; intros config H Hne; harvest_cases H;
    cbn [update_last_harvest_date harvest_state];
    rewrite ?lookup_insert_ne by done; congruence.
Qed.

Lemma harvest_leaves_other_sources_witness :
  DspaceConnector.harvest_full world_no_records dspace_config 1 db_harvested
  = Some (update_last_harvest_date sample_today (py "dspace_uclv") None
                                   db_harvested, Ok 0%nat)
  /\ py "omeka_uh" <> py "dspace_uclv"
  /\ harvest_state
       (update_last_harvest_date sample_today (py "dspace_uclv") None
                                 db_harvested) !! py "omeka_uh"
     = harvest_state db_harvested !! py "omeka_uh".
Proof.
  assert (DspaceConnector.harvest_full world_no_records dspace_config 1
                                       db_harvested
          = Some (update_last_harvest_date sample_today (py "dspace_uclv")
                                           None db_harvested, Ok 0%nat))
    as Hrun by (vm_compute; reflexivity).
  assert (py "omeka_uh" <> py "dspace_uclv") as Hne by discriminate.
  split_and!; [exact Hrun|exact Hne|].
  exact (proj1 (harvest_leaves_other_sources (L := sample_library)
                  world_no_records 1 db_harvested _ _ (py "omeka_uh"))
               dspace_config Hrun Hne).
Defined.



(** ** The advanced search statement *)

Example search_advanced_statement_example :
  search_advanced_statement (Some (py "agua")) None (Some (py "DSpace UCLV"))
                            (Some 2019%Z) None 3 20
  = (NL ++ INDENT ++ py "SELECT *" ++ NL
        ++ INDENT ++ py "FROM records" ++ NL
        ++ INDENT
        ++ py "WHERE (title LIKE ? OR abstract LIKE ? OR authors LIKE ? OR keywords LIKE ?) AND repository = ? AND CAST(substr(date_issued, 1, 4) AS INTEGER) >= ?"
        ++ NL
        ++ INDENT ++ py "ORDER BY date_issued DESC" ++ NL
        ++ INDENT ++ py "LIMIT ? OFFSET ?" ++ NL
        ++ py "        ",
     [SqlText (py "%agua%"); SqlText (py "%agua%"); SqlText (py "%agua%");
      SqlText (py "%agua%"); SqlText (py "DSpace UCLV"); SqlInteger 2019;
      SqlInteger 20; SqlInteger 40]).
Proof. vm_compute. reflexivity. Qed.

(** Find the parameters bound before the last two. *)
Ltac filters_before_paging :=
  first [ by eexists [] | by eexists [_] | by eexists [_; _]
        | by eexists [_; _; _] | by eexists [_; _; _; _]
        | by eexists [_; _; _; _; _] | by eexists [_; _; _; _; _; _]
        | by eexists [_; _; _; _; _; _; _]
        | by eexists [_; _; _; _; _; _; _; _] ].

(** X20. Whatever filters are given, the statement [search_advanced]
    executes has exactly as many [?] placeholders as parameters are bound to
    it, and the last two parameters are the page size and the offset
    [(page - 1) * page_size]. *)
Theorem search_advanced_placeholders_match
    (query type_filter repository_filter : option str)
    (year_from year_to : option Z) (page page_size : Z) :
  let '(sql, params) :=
    search_advanced_statement query type_filter repository_filter
                              year_from year_to page page_size in
  placeholders sql = length params
  /\ exists filters,
       params = filters ++ [SqlInteger page_size;
                            SqlInteger ((page - 1) * page_size)].
Proof.
  unfold search_advanced_statement.
  destruct query as [[|c1 s1]|], type_filter as [[|c2 s2]|],
    repository_filter as [[|c3 s3]|], year_from as [y1|], year_to as [y2|];
    cbn [truthy or_str app];
    (split; [vm_compute; reflexivity|filters_before_paging]).
Qed.

(** X21. The text of the statement depends only on which filters are
    present, never on their values, the page or the page size: the values
    reach the database as bound parameters only. *)
Theorem search_advanced_text_ignores_values
    (query type_filter repository_filter : option str)
    (year_from year_to : option Z) (page page_size : Z)
    (query' type_filter' repository_filter' : option str)
    (year_from' year_to' : option Z) (page' page_size' : Z) :
  truthy query = truthy query' ->
  truthy type_filter = truthy type_filter' ->
  truthy repository_filter = truthy repository_filter' ->
  (year_from = None <-> year_from' = None) ->
  (year_to = None <-> year_to' = None) ->
  (search_advanced_statement query type_filter repository_filter
                             year_from year_to page page_size).1
  = (search_advanced_statement query' type_filter' repository_filter'
                               year_from' year_to' page' page_size').1.
Proof.
  unfold search_advanced_statement. intros <- <- <- Hfrom Hto.
  assert (match year_from, year_from' with
          | Some _, Some _ | None, None => True
          | _, _ => False
          end) as Hf.
  { destruct year_from, year_from'; try done;
      destruct Hfrom as [H1 H2]; by (discriminate H1 || discriminate H2). }
  assert (match year_to, year_to' with
          | Some _, Some _ | None, None => True
          | _, _ => False
          end) as Ht.
  { destruct year_to, year_to'; try done;
      destruct Hto as [H1 H2]; by (discriminate H1 || discriminate H2). }
  destruct (truthy query), (truthy type_filter), (truthy repository_filter),
    year_from, year_from', year_to, year_to'; done.
Qed.

Lemma search_advanced_text_ignores_values_witness :
  (search_advanced_statement (Some (py "agua")) None None (Some 2019%Z) None
                             1 20).1
  = (search_advanced_statement (Some (py "%' OR 1=1 --")) (Some [])
                               None (Some 1000%Z) None 7 100).1.
Proof.
  apply search_advanced_text_ignores_values; try reflexivity;
    split; discriminate.
Defined.

(** ** Runs and their bound on requests *)

(** A run that has ended ends the same under any larger bound. *)
Lemma iter_loop_ended (server : endpoint) (self : OaiClient)
    (params : list (str * str)) (fuel d n : nat) (tok : option str)
    (items : list (str * element)) (o : outcome) :
  iter_loop server self params fuel n tok = (items, o) ->
  (forall t, o <> Pending t) ->
  iter_loop server self params (fuel + d) n tok = (items, o).
Proof.
  revert n tok items. induction fuel as [|fuel IH]; intros n tok items.
  - intros [= _ <-] Ho. by destruct (Ho tok).
  - change (S fuel + d)%nat with (S (fuel + d)). rewrite !iter_loop_step.
    destruct (server n _ _) as [status| |[root|]|]; try done.
    destruct (find_desc root _); [done|].
    destruct (next_token root) as [token|]; [|done].
    destruct (iter_loop server self params fuel (S n) (Some token))
      as [rest o'] eqn:Hrest.
    intros [= <- ->] Ho. by rewrite (IH _ _ _ Hrest Ho).
Qed.

(** A run still going yields, under a larger bound, the same pairs first. *)
Lemma iter_loop_going (server : endpoint) (self : OaiClient)
    (params : list (str * str)) (fuel d n : nat) (tok tok' : option str)
    (items : list (str * element)) :
  iter_loop server self params fuel n tok = (items, Pending tok') ->
  exists rest o,
    iter_loop server self params (fuel + d) n tok = (items ++ rest, o).
Proof.
  intros H. rewrite (iter_loop_resume _ _ _ _ _ _ _ _ _ H).
  destruct (iter_loop server self params d (n + fuel) tok') as [rest o].
  by exists rest, o.
Qed.

Lemma harvest_loop_raised_early {L : Library}
    (mapper : datetime -> str -> element -> str -> str ->
              result UnifiedScholarlyRecord)
    (w : world) (inst repo : str) (items rest : list (str * element))
    (k : nat) (db db' : database) (count : nat) (e : exception) :
  harvest_loop mapper w inst repo items k db count = (db', Raise e) ->
  harvest_loop mapper w inst repo (items ++ rest) k db count
  = (db', Raise e).
Proof.
  revert k db count. induction items as [|[oai dc_el] items IH];
    intros k db count; simpl; [done|].
  destruct (mapper _ _ _ _ _) as [record|e']; [apply IH|done].
Qed.

(** Settle one harvest call of [harvest_result_independent_of_bound]. *)
Ltac larger_bound d :=
  match goal with
  | H : _ = Some _ |- _ =>
      unfold_harvest;
      unfold DspaceConnector.harvest_full,
        DspaceConnector.harvest_incremental, OmekaConnector.harvest_full,
        OmekaConnector.harvest_incremental in H;
      unfold iter_records in *;
      match type of H with
      | context [iter_loop ?s ?c ?p ?f ?n ?t] =>
          destruct (iter_loop s c p f n t) as [items [| |tok']] eqn:Hit;
          [ rewrite (iter_loop_ended _ _ _ _ d _ _ _ _ Hit) by done; exact H
          | rewrite (iter_loop_ended _ _ _ _ d _ _ _ _ Hit) by done; exact H
          | destruct (iter_loop_going _ _ _ _ d _ _ _ _ Hit)
              as (rest & o & Hmore); rewrite Hmore;
            match type of H with
            | context [harvest_loop ?m ?w ?i ?r ?it ?k ?db ?c] =>
                destruct (harvest_loop m w i r it k db c)
                  as [db1 [c1|e1]] eqn:Hloop; [done|];
                by rewrite (harvest_loop_raised_early _ _ _ _ _ rest
                              _ _ _ _ _ Hloop)
            end ]
      end
  end.

(** X22. What a harvest does is settled once it has ended: within any
    larger bound on its requests it leaves the same database and returns
    the same count or lets the same exception through. This in both modes
    of both connectors. *)
Theorem harvest_result_independent_of_bound {L : Library} (w : world)
    (fuel d : nat) (db : database) (ended : database * result nat) :
  (forall config,
     DspaceConnector.harvest_full w config fuel db = Some ended ->
     DspaceConnector.harvest_full w config (fuel + d) db = Some ended)
  /\ (forall config,
        DspaceConnector.harvest_incremental w config fuel db = Some ended ->
        DspaceConnector.harvest_incremental w config (fuel + d) db
        = Some ended)
  /\ (forall config,
        OmekaConnector.harvest_full w config fuel db = Some ended ->
        OmekaConnector.harvest_full w config (fuel + d) db = Some ended)
  /\ (forall config,
        OmekaConnector.harvest_incremental w config fuel db = Some ended ->
        OmekaConnector.harvest_incremental w config (fuel + d) db
        = Some ended).
Proof.
  split_and!; intros config H; larger_bound d.
Qed.

Lemma harvest_result_independent_of_bound_witness :
  DspaceConnector.harvest_full world_no_records dspace_config 1 db_fresh
  = Some (update_last_harvest_date sample_today (py "dspace_uclv") None
                                   db_fresh, Ok 0%nat)
  /\ DspaceConnector.harvest_full world_no_records dspace_config (1 + 9)
                                  db_fresh
     = Some (update_last_harvest_date sample_today (py "dspace_uclv") None
                                      db_fresh, Ok 0%nat).
Proof.
  assert (DspaceConnector.harvest_full world_no_records dspace_config 1
                                       db_fresh
          = Some (update_last_harvest_date sample_today (py "dspace_uclv")
                                           None db_fresh, Ok 0%nat))
    as Hrun by (vm_compute; reflexivity).
  split; [exact Hrun|].
  exact (proj1 (harvest_result_independent_of_bound (L := sample_library)
                  world_no_records 1 9 db_fresh _) dspace_config Hrun).
Defined.
